(** * smbfs file operations (src/vfs/smbfs/file.c)

    A shallow embedding of the six file operations of the smbfs backend of
    the Midnight Commander VFS: [smbfs_file_open], [smbfs_file_read],
    [smbfs_file_close], [smbfs_file_stat], [smbfs_file_write] and
    [smbfs_file_lseek].

    The C code works on pointers, on the ambient [errno] and on the external
    libsmbclient primitives.  The embedding keeps all of that explicit:

    - memory is a typed heap ([gmap addr Obj]); a pointer is [option addr],
      [None] being [NULL];
    - [errno], the heap, the state of the protocol client and a trace of the
      observable steps (errno accesses, primitive calls, allocations) form
      the [World];
    - an operation is a computation in the monad [M], a state monad over
      [World] in which undefined behaviour of the C program (dereferencing a
      pointer that is not live, freeing twice) is the absence of a result.

    Integer widths follow the LP64 data model ([int] 32 bits; [off_t],
    [ssize_t] 64 bits). *)

From Stdlib Require Import ZArith String Lia.
From stdpp Require Import base option gmap.

Local Open Scope Z_scope.

(** ** Data *)

Definition addr := positive.

(** A C pointer: [None] is [NULL]. *)
Definition ptr := option addr.

Definition NULL : ptr := None.

Definition GQuark := N.

(** [smbfs_file_handler_data_t]: the backend state, one numeric handle. *)
Record smbfs_file_handler_data_t := Build_data { handle : Z }.

(** [vfs_file_handler_t], restricted to the two fields file.c touches. *)
Record vfs_file_handler_t := Build_handler { pos : Z; data : ptr }.

(** GLib's [GError]. *)
Record GError := Build_GError { domain : GQuark; code : Z; message : string }.

(** What a heap cell holds. [OErr] is a caller's [GError *] variable, the
    target of the [GError **error] argument. *)
Inductive Obj :=
| OStr (s : string)
| OData (d : smbfs_file_handler_data_t)
| OHandler (h : vfs_file_handler_t)
| OErr (e : option GError).

Inductive Prim := P_open | P_read | P_write | P_lseek | P_fstat | P_close.

(** Observable steps of an operation, oldest first. *)
Inductive Event :=
| EvErrnoStore (v : Z)
| EvErrnoLoad (v : Z)
| EvCall (p : Prim) (rc : Z)
| EvAlloc (a : addr)
| EvFree (a : addr).

(** What a protocol primitive hands back: its return value, the [errno] it
    leaves, and the new state of the client (which also stands for the
    caller's buffers the primitive fills). *)
Record Reply (E : Type) := Build_Reply { r_rc : Z; r_errno : Z; r_ext : E }.

Arguments Build_Reply {E} _ _ _.
Arguments r_rc {E} _.
Arguments r_errno {E} _.
Arguments r_ext {E} _.

(** The collaborators of file.c that are not part of it: libsmbclient
    ([smbc_*]), the path resolver, [smbfs_strerror], gettext's [_] and the
    error domain [MC_ERROR].  Each primitive sees the [errno] and the client
    state at the time of the call. *)
Class Backend := {
  ext_state : Type;
  vfs_path_t : Type;
  vfs_path_element_t : Type;
  vfs_path_get_by_index : vfs_path_t → Z → vfs_path_element_t;
  smbfs_make_url : vfs_path_element_t → bool → string;
  smbfs_strerror : Z → string;
  gettext : string → string;
  MC_ERROR : GQuark;
  smbc_open : string → Z → Z → Z → ext_state → Reply ext_state;
  smbc_read : Z → ptr → Z → Z → ext_state → Reply ext_state;
  smbc_write : Z → ptr → Z → Z → ext_state → Reply ext_state;
  smbc_lseek : Z → Z → Z → Z → ext_state → Reply ext_state;
  smbc_fstat : Z → ptr → Z → ext_state → Reply ext_state;
  smbc_close : Z → Z → ext_state → Reply ext_state
}.

Record World `{Backend} := Build_World {
  errno : Z;
  heap : gmap addr Obj;
  ext : ext_state;
  trace : list Event
}.

(** [off_t] arithmetic: 64-bit two's complement. *)
Definition off_t_min : Z := - 2 ^ 63.

Definition off_t_max : Z := 2 ^ 63 - 1.

Definition wrap_off_t (z : Z) : Z := (z + 2 ^ 63) mod 2 ^ 64 - 2 ^ 63.

(** POSIX error numbers are positive; 0 is "no error". *)
Definition is_os_errno (c : Z) : Prop := 0 < c.

(** ** The monad *)

Definition M `{Backend} (A : Type) : Type := World → option (A * World).

#[global] Instance M_ret `{Backend} : MRet M := λ A x w, Some (x, w).

#[global] Instance M_bind `{Backend} : MBind M :=
  λ A B f m w, match m w with Some (x, w') => f x w' | None => None end.

Definition with_heap `{Backend} (w : World) (h : gmap addr Obj) : World :=
  {| errno := errno w; heap := h; ext := ext w; trace := trace w |}.

(** [errno = v;] *)
Definition store_errno `{Backend} (v : Z) : M unit :=
  λ w, Some (tt, {| errno := v; heap := heap w; ext := ext w;
                    trace := trace w ++ [EvErrnoStore v] |}).

(** An rvalue use of [errno]. *)
Definition load_errno `{Backend} : M Z :=
  λ w, Some (errno w, {| errno := errno w; heap := heap w; ext := ext w;
                         trace := trace w ++ [EvErrnoLoad (errno w)] |}).

(** A call of a protocol primitive. *)
Definition invoke `{Backend} (p : Prim) (f : Z → ext_state → Reply ext_state) : M Z :=
  λ w, let r := f (errno w) (ext w) in
       Some (r_rc r, {| errno := r_errno r; heap := heap w; ext := r_ext r;
                        trace := trace w ++ [EvCall p (r_rc r)] |}).

(** [*p] for [p] of type [vfs_file_handler_t *]. *)
Definition deref_handler `{Backend} (p : ptr) : M vfs_file_handler_t :=
  λ w, match p with
       | Some a => match heap w !! a with
                   | Some (OHandler h) => Some (h, w)
                   | _ => None
                   end
       | None => None
       end.

(** [*p] for [p] of type [smbfs_file_handler_data_t *]. *)
Definition deref_data `{Backend} (p : ptr) : M smbfs_file_handler_data_t :=
  λ w, match p with
       | Some a => match heap w !! a with
                   | Some (OData d) => Some (d, w)
                   | _ => None
                   end
       | None => None
       end.

(** [*p] for [p] of type [char *]. *)
Definition deref_str `{Backend} (p : ptr) : M string :=
  λ w, match p with
       | Some a => match heap w !! a with
                   | Some (OStr s) => Some (s, w)
                   | _ => None
                   end
       | None => None
       end.

(** [file_handler->pos = v;] *)
Definition set_pos `{Backend} (p : ptr) (v : Z) : M unit :=
  λ w, match p with
       | Some a => match heap w !! a with
                   | Some (OHandler h) =>
                       Some (tt, with_heap w (<[a := OHandler {| pos := v; data := data h |}]> (heap w)))
                   | _ => None
                   end
       | None => None
       end.

(** [file_handler_data->handle = v;] *)
Definition set_handle `{Backend} (p : ptr) (v : Z) : M unit :=
  λ w, match p with
       | Some a => match heap w !! a with
                   | Some (OData _) =>
                       Some (tt, with_heap w (<[a := OData {| handle := v |}]> (heap w)))
                   | _ => None
                   end
       | None => None
       end.

(** GLib allocation: a block that was not live, holding [o]. *)
Definition g_malloc `{Backend} (o : Obj) : M ptr :=
  λ w, let a := fresh (dom (heap w)) in
       Some (Some a, {| errno := errno w; heap := <[a := o]> (heap w); ext := ext w;
                        trace := trace w ++ [EvAlloc a] |}).

(** [g_new0 (smbfs_file_handler_data_t, 1)]: a zeroed backend state. *)
Definition g_new0_data `{Backend} : M ptr := g_malloc (OData {| handle := 0 |}).

(** [g_free (p)]: nothing for [NULL]; releases a live block; freeing a block
    that is not live is undefined.  [errno] is left alone, as [free] does
    (POSIX.1-2024; glibc since 2.33). *)
Definition g_free `{Backend} (p : ptr) : M unit :=
  λ w, match p with
       | None => Some (tt, w)
       | Some a => match heap w !! a with
                   | Some _ => Some (tt, {| errno := errno w; heap := delete a (heap w);
                                            ext := ext w; trace := trace w ++ [EvFree a] |})
                   | None => None
                   end
       end.

(** GLib's [g_set_error (error, domain, code, format, ...)] once the message
    is formatted: does nothing when [error] is [NULL]; fills an empty
    [*error]; leaves an [*error] that is already set (GLib only warns). *)
Definition g_set_error `{Backend} (error : ptr) (d : GQuark) (c : Z) (msg : string) : M unit :=
  λ w, match error with
       | None => Some (tt, w)
       | Some e => match heap w !! e with
                   | Some (OErr None) =>
                       Some (tt, with_heap w (<[e := OErr (Some {| domain := d; code := c; message := msg |})]> (heap w)))
                   | Some (OErr (Some _)) => Some (tt, w)
                   | _ => None
                   end
       end.

(** [file_handler == NULL || file_handler->data == NULL] *)
Definition no_handler_data `{Backend} (file_handler : ptr) : M bool :=
  match file_handler with
  | None => mret true
  | Some _ => h ← deref_handler file_handler;
              mret (match data h with None => true | Some _ => false end)
  end.

(** [g_set_error (error, MC_ERROR, errno, "%s", smbfs_strerror (errno))] *)
Definition set_errno_error `{Backend} (error : ptr) : M unit :=
  c ← load_errno;
  e ← load_errno;
  g_set_error error MC_ERROR c (smbfs_strerror e).

(** ** The operations of file.c *)

Definition smbfs_file_open `{Backend} (vpath : vfs_path_t) (flags mode : Z) (error : ptr) : M ptr :=
  let path_element := vfs_path_get_by_index vpath (-1) in
  smb_url ← g_malloc (OStr (smbfs_make_url path_element true));
  store_errno 0;;
  url ← deref_str smb_url;
  handle ← invoke P_open (smbc_open url flags mode);
  g_free smb_url;;
  if 0 <=? handle then
    file_handler_data ← g_new0_data;
    set_handle file_handler_data handle;;
    mret file_handler_data
  else
    set_errno_error error;;
    mret NULL.

Definition smbfs_file_read `{Backend} (file_handler buffer : ptr) (count : Z) (error : ptr) : M Z :=
  missing ← no_handler_data file_handler;
  if (missing : bool) then
    g_set_error error MC_ERROR (-1)
      (gettext "smbfs: No file handler data present for reading file"%string);;
    mret (-1)
  else
    fh ← deref_handler file_handler;
    let file_handler_data := data fh in
    store_errno 0;;
    d ← deref_data file_handler_data;
    rc ← invoke P_read (smbc_read (handle d) buffer count);
    (if rc <? 0 then set_errno_error error
     else fh' ← deref_handler file_handler;
          set_pos file_handler (wrap_off_t (pos fh' + rc)));;
    mret rc.

Definition smbfs_file_close `{Backend} (file_handler error : ptr) : M Z :=
  missing ← no_handler_data file_handler;
  if (missing : bool) then
    g_set_error error MC_ERROR (-1)
      (gettext "smbfs: No file handler data present for closing file"%string);;
    mret (-1)
  else
    fh ← deref_handler file_handler;
    let file_handler_data := data fh in
    store_errno 0;;
    d ← deref_data file_handler_data;
    rc ← invoke P_close (smbc_close (handle d));
    (if rc <? 0 then set_errno_error error
     else g_free file_handler_data);;
    mret rc.

Definition smbfs_file_stat `{Backend} (file_handler buf error : ptr) : M Z :=
  missing ← no_handler_data file_handler;
  if (missing : bool) then
    g_set_error error MC_ERROR (-1)
      (gettext "smbfs: No file handler data present for fstat file"%string);;
    mret (-1)
  else
    fh ← deref_handler file_handler;
    let file_handler_data := data fh in
    store_errno 0;;
    d ← deref_data file_handler_data;
    rc ← invoke P_fstat (smbc_fstat (handle d) buf);
    (if rc <? 0 then set_errno_error error else mret tt);;
    mret rc.

Definition smbfs_file_write `{Backend} (file_handler buffer : ptr) (count : Z) (error : ptr) : M Z :=
  missing ← no_handler_data file_handler;
  if (missing : bool) then
    g_set_error error MC_ERROR (-1)
      (gettext "smbfs: No file handler data present for fstat file"%string);;
    mret (-1)
  else
    fh ← deref_handler file_handler;
    let file_handler_data := data fh in
    store_errno 0;;
    d ← deref_data file_handler_data;
    rc ← invoke P_write (smbc_write (handle d) buffer count);
    (if rc <? 0 then set_errno_error error else mret tt);;
    mret rc.

Definition smbfs_file_lseek `{Backend} (file_handler : ptr) (offset whence : Z) (error : ptr) : M Z :=
  missing ← no_handler_data file_handler;
  if (missing : bool) then
    g_set_error error MC_ERROR (-1)
      (gettext "smbfs: No file handler data present for fstat file"%string);;
    mret (-1)
  else
    fh ← deref_handler file_handler;
    let file_handler_data := data fh in
    store_errno 0;;
    d ← deref_data file_handler_data;
    rc ← invoke P_lseek (smbc_lseek (handle d) offset whence);
    (if rc =? -1 then set_errno_error error
     else set_pos file_handler rc);;
    mret rc.

(** ** The five operations that take a file handle, as the VFS class table
    dispatches them *)

Inductive Op :=
| Read (buffer : ptr) (count : Z)
| Write (buffer : ptr) (count : Z)
| Seek (offset whence : Z)
| Stat (buf : ptr)
| Close.

Definition run `{Backend} (o : Op) (file_handler error : ptr) : M Z :=
  match o with
  | Read buffer count => smbfs_file_read file_handler buffer count error
  | Write buffer count => smbfs_file_write file_handler buffer count error
  | Seek offset whence => smbfs_file_lseek file_handler offset whence error
  | Stat buf => smbfs_file_stat file_handler buf error
  | Close => smbfs_file_close file_handler error
  end.

(** The primitive an operation calls, and what it hands back in world [w]
    for the numeric handle [fd] (the adapter has just cleared [errno]). *)
Definition prim_of (o : Op) : Prim :=
  match o with
  | Read _ _ => P_read
  | Write _ _ => P_write
  | Seek _ _ => P_lseek
  | Stat _ => P_fstat
  | Close => P_close
  end.

Definition reply_of `{Backend} (o : Op) (fd : Z) (w : World) : Reply ext_state :=
  match o with
  | Read buffer count => smbc_read fd buffer count 0 (ext w)
  | Write buffer count => smbc_write fd buffer count 0 (ext w)
  | Seek offset whence => smbc_lseek fd offset whence 0 (ext w)
  | Stat buf => smbc_fstat fd buf 0 (ext w)
  | Close => smbc_close fd 0 (ext w)
  end.

(** The primitive's return value means failure: negative, except for
    [smbc_lseek], whose only failure value is [-1]. *)
Definition failed (o : Op) (rc : Z) : bool :=
  match o with
  | Seek _ _ => rc =? -1
  | _ => rc <? 0
  end.

(** The message id of an operation's "no file handler data" error. *)
Definition contract_msgid (o : Op) : string :=
  match o with
  | Read _ _ => "smbfs: No file handler data present for reading file"
  | Close => "smbfs: No file handler data present for closing file"
  | Stat _ => "smbfs: No file handler data present for fstat file"
  | Write _ _ => "smbfs: No file handler data present for fstat file"
  | Seek _ _ => "smbfs: No file handler data present for fstat file"
  end.

(** ** When a call is well defined *)

(** [file_handler] points to a handler [h] whose backend state [da] is a
    live block holding [d]: the state between a successful open and the
    matching close. *)
Definition live_handle `{Backend} (w : World) (a : addr) (h : vfs_file_handler_t)
    (da : addr) (d : smbfs_file_handler_data_t) : Prop :=
  heap w !! a = Some (OHandler h) ∧ data h = Some da ∧ heap w !! da = Some (OData d).

(** The handle, or its backend state, is missing. *)
Definition missing_handler_data `{Backend} (w : World) (file_handler : ptr) : bool :=
  match file_handler with
  | None => true
  | Some a => match heap w !! a with
              | Some (OHandler h) => match data h with None => true | Some _ => false end
              | _ => false
              end
  end.

(** [error] is [NULL] or points to a [GError *] variable. *)
Definition error_arg_ok `{Backend} (w : World) (error : ptr) : bool :=
  match error with
  | None => true
  | Some e => match heap w !! e with Some (OErr _) => true | _ => false end
  end.

(** The error file.c builds from the ambient error code [c]. *)
Definition errno_error `{Backend} (c : Z) : GError :=
  {| domain := MC_ERROR; code := c; message := smbfs_strerror c |}.

(** ** Reading traces *)

(** Some primitive call in [tr] has a read of [errno] as the step right
    before it. *)
Fixpoint load_right_before_call (tr : list Event) : bool :=
  match tr with
  | [] => false
  | EvErrnoLoad _ :: (EvCall _ _ :: _) => true
  | _ :: tl => load_right_before_call tl
  end.

(** Every primitive call in [tr] has a read of [errno] as the step right
    after it. *)
Fixpoint load_right_after_calls (tr : list Event) : bool :=
  match tr with
  | [] => true
  | EvCall _ _ :: tl =>
      match tl with
      | EvErrnoLoad _ :: _ => load_right_after_calls tl
      | _ => false
      end
  | _ :: tl => load_right_after_calls tl
  end.

(** ** A scripted protocol client

    A fake client for running the operations: it answers each call with the
    next scripted pair (return value, errno), whatever the primitive, and
    counts the calls.  A failing answer sets [errno]; any other leaves it. *)

Record Fake := Build_Fake { script : list (Z * Z); served : nat }.

Definition fake_prim (errno_in : Z) (s : Fake) : Reply Fake :=
  match script s with
  | [] => {| r_rc := -1; r_errno := 9; r_ext := {| script := []; served := S (served s) |} |}
  | (rc, e) :: rest =>
      {| r_rc := rc; r_errno := if rc <? 0 then e else errno_in;
         r_ext := {| script := rest; served := S (served s) |} |}
  end.

Definition fake_strerror (c : Z) : string :=
  if c =? 5 then "Input/output error"%string
  else if c =? 13 then "Permission denied"%string
  else "Unknown error"%string.

Definition fake : Backend :=
  {| ext_state := Fake;
     vfs_path_t := string;
     vfs_path_element_t := string;
     vfs_path_get_by_index := λ p _, p;
     smbfs_make_url := λ p _, String.append "smb://" p;
     smbfs_strerror := fake_strerror;
     gettext := λ s, s;
     MC_ERROR := 1%N;
     smbc_open := λ _ _ _, fake_prim;
     smbc_read := λ _ _ _, fake_prim;
     smbc_write := λ _ _ _, fake_prim;
     smbc_lseek := λ _ _ _, fake_prim;
     smbc_fstat := λ _ _, fake_prim;
     smbc_close := λ _, fake_prim |}.

(** A handler at address 1, at position 10, whose backend state (numeric
    handle 3) is at address 2; an empty [GError *] variable at address 3. *)
Definition fake_heap : gmap addr Obj :=
  <[1%positive := OHandler {| pos := 10; data := Some 2%positive |}]>
    (<[2%positive := OData {| handle := 3 |}]>
       (<[3%positive := OErr None]> ∅)).

(** A world with that heap, [errno] 5 left by earlier code, and a client
    that answers as scripted. *)
Definition fake_world (answers : list (Z * Z)) : @World fake :=
  @Build_World fake 5 fake_heap {| script := answers; served := 0 |} [].

(** ** Consecutive reads *)

(** One [smbfs_file_read] per count, in order, on the same handle; the
    return values in order. *)
Fixpoint read_all `{Backend} (file_handler buffer : ptr) (counts : list Z) (error : ptr)
    : M (list Z) :=
  match counts with
  | [] => mret []
  | count :: rest =>
      rc ← smbfs_file_read file_handler buffer count error;
      rcs ← read_all file_handler buffer rest error;
      mret (rc :: rcs)
  end.

(** The bytes the reads of [rcs] delivered: failed reads deliver none. *)
Fixpoint bytes_read (rcs : list Z) : Z :=
  match rcs with
  | [] => 0
  | rc :: rest => (if rc <? 0 then 0 else rc) + bytes_read rest
  end.

(** ** Sequences of operations on one handle *)

(** The operations of [ops], in order, on the same handle; the return
    values in order. *)
Fixpoint run_all `{Backend} (file_handler : ptr) (ops : list Op) (error : ptr)
    : M (list Z) :=
  match ops with
  | [] => mret []
  | o :: rest =>
      rc ← run o file_handler error;
      rcs ← run_all file_handler rest error;
      mret (rc :: rcs)
  end.

Definition is_close (o : Op) : bool :=
  match o with Close => true | _ => false end.

(** The position bookkeeping of file.c, read as a function of what the
    operation returned: Read adds the bytes read, Seek stores the offset,
    and nothing else writes [pos]. *)
Definition next_pos (o : Op) (rc : Z) (p : Z) : Z :=
  match o with
  | Read _ _ => if rc <? 0 then p else wrap_off_t (p + rc)
  | Seek _ _ => if rc =? -1 then p else rc
  | _ => p
  end.

Fixpoint track_pos (p : Z) (ops : list Op) (rcs : list Z) : Z :=
  match ops, rcs with
  | o :: ops', rc :: rcs' => track_pos (next_pos o rc p) ops' rcs'
  | _, _ => p
  end.

(** The primitives called in a trace, in order. *)
Fixpoint calls (tr : list Event) : list Prim :=
  match tr with
  | [] => []
  | EvCall p _ :: tl => p :: calls tl
  | _ :: tl => calls tl
  end.

(** The world [w] with another ambient [errno]. *)
Definition with_errno `{Backend} (w : World) (v : Z) : World :=
  {| errno := v; heap := heap w; ext := ext w; trace := trace w |}.

(** ** Basic facts about the monad's actions *)

Lemma wrap_off_t_id (z : Z) : off_t_min ≤ z ≤ off_t_max → wrap_off_t z = z.
Proof.
  unfold off_t_min, off_t_max, wrap_off_t. intros Hz.
  rewrite Z.mod_small; lia.
Qed.

Lemma no_handler_data_live `{Backend} (w : World) a h da d :
  live_handle w a h da d → no_handler_data (Some a) w = Some (false, w).
Proof.
  intros (Ha & Hda & _). unfold no_handler_data, deref_handler, mbind, M_bind, mret, M_ret.
  by rewrite Ha, Hda.
Qed.

Lemma no_handler_data_missing `{Backend} (w : World) file_handler :
  missing_handler_data w file_handler = true →
  no_handler_data file_handler w = Some (true, w).
Proof.
  unfold missing_handler_data, no_handler_data, deref_handler, mbind, M_bind, mret, M_ret.
  destruct file_handler as [a|]; [|done].
  destruct (heap w !! a) as [[| |h|]|]; try done.
  by destruct (data h).
Qed.

Lemma set_errno_error_empty `{Backend} (w : World) (e : addr) :
  heap w !! e = Some (OErr None) →
  set_errno_error (Some e) w =
    Some (tt, {| errno := errno w;
                 heap := <[e := OErr (Some (errno_error (errno w)))]> (heap w);
                 ext := ext w;
                 trace := (trace w ++ [EvErrnoLoad (errno w)]) ++ [EvErrnoLoad (errno w)] |}).
Proof.
  intros He. unfold set_errno_error, load_errno, g_set_error, mbind, M_bind. simpl.
  by rewrite He.
Qed.

Lemma set_errno_error_defined `{Backend} (w : World) (error : ptr) :
  error_arg_ok w error = true →
  ∃ w', set_errno_error error w = Some (tt, w') ∧
        (∀ b d, heap w !! b = Some (OData d) → heap w' !! b = Some (OData d)) ∧
        (∀ b h, heap w !! b = Some (OHandler h) → heap w' !! b = Some (OHandler h)) ∧
        (∀ error', error_arg_ok w error' = true → error_arg_ok w' error' = true).
Proof.
  unfold error_arg_ok, set_errno_error, load_errno, g_set_error, mbind, M_bind. simpl.
  destruct error as [e|]; [|intros _; eexists; split; [done|]; simpl; eauto].
  destruct (heap w !! e) as [[| | |[g|]]|] eqn:He; try done; intros _.
  - eexists; split; [done|]; simpl; eauto.
  - eexists; split; [done|]; simpl. repeat split.
    + intros b d Hb. rewrite lookup_insert_ne; [done|congruence].
    + intros b h Hb. rewrite lookup_insert_ne; [done|congruence].
    + intros [e'|]; [|done]. destruct (decide (e = e')) as [->|Hne].
      * by rewrite lookup_insert_eq.
      * by rewrite lookup_insert_ne.
Qed.

(** ** The operations on a live handle

    Each lemma runs one operation up to the point where the outcome of the
    primitive decides what happens: [errno] has been cleared, the primitive
    has answered [r]. *)

Ltac enter_live Hlive :=
  let Ha := fresh "Ha" in
  let Hda := fresh "Hda" in
  let Hd := fresh "Hd" in
  pose proof Hlive as (Ha & Hda & Hd);
  unfold mbind at 1, M_bind at 1;
  rewrite (no_handler_data_live _ _ _ _ _ Hlive);
  unfold mbind, M_bind, deref_handler, store_errno, deref_data, invoke;
  rewrite Ha; cbn [errno heap ext trace]; rewrite Hda, Hd;
  cbn [errno heap ext trace].

Lemma read_live `{Backend} (w : World) a h da d buffer count error :
  live_handle w a h da d →
  let r := smbc_read (handle d) buffer count 0 (ext w) in
  let w1 := {| errno := r_errno r; heap := heap w; ext := r_ext r;
               trace := (trace w ++ [EvErrnoStore 0]) ++ [EvCall P_read (r_rc r)] |} in
  smbfs_file_read (Some a) buffer count error w =
    if r_rc r <? 0
    then match set_errno_error error w1 with
         | Some (_, w2) => Some (r_rc r, w2)
         | None => None
         end
    else Some (r_rc r, with_heap w1
                 (<[a := OHandler {| pos := wrap_off_t (pos h + r_rc r); data := data h |}]> (heap w))).
Proof.
  intros Hlive r w1. unfold smbfs_file_read. enter_live Hlive. fold r. fold w1.
  destruct (r_rc r <? 0).
  - by destruct (set_errno_error error w1) as [[[] w2]|].
  - unfold set_pos, mret, M_ret. subst w1. cbn [errno heap ext trace].
    rewrite Ha. cbn [errno heap ext trace]. by rewrite Ha, ?Hda.
Qed.

Lemma write_live `{Backend} (w : World) a h da d buffer count error :
  live_handle w a h da d →
  let r := smbc_write (handle d) buffer count 0 (ext w) in
  let w1 := {| errno := r_errno r; heap := heap w; ext := r_ext r;
               trace := (trace w ++ [EvErrnoStore 0]) ++ [EvCall P_write (r_rc r)] |} in
  smbfs_file_write (Some a) buffer count error w =
    if r_rc r <? 0
    then match set_errno_error error w1 with
         | Some (_, w2) => Some (r_rc r, w2)
         | None => None
         end
    else Some (r_rc r, w1).
Proof.
  intros Hlive r w1. unfold smbfs_file_write. enter_live Hlive. fold r. fold w1.
  destruct (r_rc r <? 0).
  - by destruct (set_errno_error error w1) as [[[] w2]|].
  - done.
Qed.

Lemma stat_live `{Backend} (w : World) a h da d buf error :
  live_handle w a h da d →
  let r := smbc_fstat (handle d) buf 0 (ext w) in
  let w1 := {| errno := r_errno r; heap := heap w; ext := r_ext r;
               trace := (trace w ++ [EvErrnoStore 0]) ++ [EvCall P_fstat (r_rc r)] |} in
  smbfs_file_stat (Some a) buf error w =
    if r_rc r <? 0
    then match set_errno_error error w1 with
         | Some (_, w2) => Some (r_rc r, w2)
         | None => None
         end
    else Some (r_rc r, w1).
Proof.
  intros Hlive r w1. unfold smbfs_file_stat. enter_live Hlive. fold r. fold w1.
  destruct (r_rc r <? 0).
  - by destruct (set_errno_error error w1) as [[[] w2]|].
  - done.
Qed.

Lemma lseek_live `{Backend} (w : World) a h da d offset whence error :
  live_handle w a h da d →
  let r := smbc_lseek (handle d) offset whence 0 (ext w) in
  let w1 := {| errno := r_errno r; heap := heap w; ext := r_ext r;
               trace := (trace w ++ [EvErrnoStore 0]) ++ [EvCall P_lseek (r_rc r)] |} in
  smbfs_file_lseek (Some a) offset whence error w =
    if r_rc r =? -1
    then match set_errno_error error w1 with
         | Some (_, w2) => Some (r_rc r, w2)
         | None => None
         end
    else Some (r_rc r, with_heap w1
                 (<[a := OHandler {| pos := r_rc r; data := data h |}]> (heap w))).
Proof.
  intros Hlive r w1. unfold smbfs_file_lseek. enter_live Hlive. fold r. fold w1.
  destruct (r_rc r =? -1).
  - by destruct (set_errno_error error w1) as [[[] w2]|].
  - unfold set_pos, mret, M_ret. subst w1. cbn [errno heap ext trace].
    by rewrite Ha, ?Hda.
Qed.

Lemma close_live `{Backend} (w : World) a h da d error :
  live_handle w a h da d →
  let r := smbc_close (handle d) 0 (ext w) in
  let w1 := {| errno := r_errno r; heap := heap w; ext := r_ext r;
               trace := (trace w ++ [EvErrnoStore 0]) ++ [EvCall P_close (r_rc r)] |} in
  smbfs_file_close (Some a) error w =
    if r_rc r <? 0
    then match set_errno_error error w1 with
         | Some (_, w2) => Some (r_rc r, w2)
         | None => None
         end
    else Some (r_rc r, {| errno := r_errno r; heap := delete da (heap w); ext := r_ext r;
                          trace := trace w1 ++ [EvFree da] |}).
Proof.
  intros Hlive r w1. unfold smbfs_file_close. enter_live Hlive. fold r. fold w1.
  destruct (r_rc r <? 0).
  - by destruct (set_errno_error error w1) as [[[] w2]|].
  - unfold g_free, mret, M_ret. subst w1. cbn [errno heap ext trace].
    by rewrite Hd.
Qed.

(** On a missing handle every operation only reports its contract error. *)
Lemma run_missing `{Backend} (o : Op) (w : World) (file_handler error : ptr) :
  missing_handler_data w file_handler = true →
  run o file_handler error w =
    match g_set_error error MC_ERROR (-1) (gettext (contract_msgid o)) w with
    | Some (_, w') => Some (-1, w')
    | None => None
    end.
Proof.
  intros Hmiss. apply no_handler_data_missing in Hmiss.
  destruct o; simpl;
    [unfold smbfs_file_read|unfold smbfs_file_write|unfold smbfs_file_lseek
    |unfold smbfs_file_stat|unfold smbfs_file_close];
    unfold mbind at 1, M_bind at 1; rewrite Hmiss;
    unfold mbind, M_bind, mret, M_ret;
    by destruct (g_set_error _ _ _ _ w) as [[[] w']|].
Qed.

Lemma g_set_error_empty `{Backend} (w : World) (e : addr) dom c msg :
  heap w !! e = Some (OErr None) →
  g_set_error (Some e) dom c msg w =
    Some (tt, with_heap w (<[e := OErr (Some {| domain := dom; code := c; message := msg |})]> (heap w))).
Proof. intros He. unfold g_set_error. by rewrite He. Qed.

Lemma fresh_block_free `{Backend} (w : World) : heap w !! fresh (dom (heap w)) = None.
Proof. apply not_elem_of_dom, is_fresh. Qed.

(** Open, up to the test of the numeric handle: the URL block [u] has been
    allocated and released again, so the heap is the one Open started in. *)
Lemma open_run `{Backend} (w : World) vpath flags mode error :
  let url := smbfs_make_url (vfs_path_get_by_index vpath (-1)) true in
  let u := fresh (dom (heap w)) in
  let r := smbc_open url flags mode 0 (ext w) in
  let tr := trace w ++ [EvAlloc u; EvErrnoStore 0; EvCall P_open (r_rc r); EvFree u] in
  smbfs_file_open vpath flags mode error w =
    if 0 <=? r_rc r
    then Some (Some u, {| errno := r_errno r;
                          heap := <[u := OData {| handle := r_rc r |}]> (heap w);
                          ext := r_ext r;
                          trace := tr ++ [EvAlloc u] |})
    else match set_errno_error error
                 {| errno := r_errno r; heap := heap w; ext := r_ext r; trace := tr |} with
         | Some (_, w2) => Some (NULL, w2)
         | None => None
         end.
Proof.
  intros url u r tr. pose proof (fresh_block_free w) as Hu. fold u in Hu.
  assert (Hback : delete u (<[u := OStr url]> (heap w)) = heap w)
    by (rewrite delete_insert_eq; by apply delete_id).
  unfold smbfs_file_open, g_new0_data, g_malloc, store_errno, deref_str, invoke, g_free,
    mbind, M_bind.
  cbn [errno heap ext trace]. fold url u.
  rewrite lookup_insert_eq. cbn [errno heap ext trace]. fold r.
  rewrite lookup_insert_eq. cbn [errno heap ext trace]. rewrite Hback.
  assert (Htr : (((trace w ++ [EvAlloc u]) ++ [EvErrnoStore 0]) ++ [EvCall P_open (r_rc r)])
                  ++ [EvFree u] = tr)
    by (subst tr; by rewrite <- !app_assoc).
  rewrite Htr.
  destruct (0 <=? r_rc r).
  - unfold set_handle, mret, M_ret, with_heap. cbn [errno heap ext trace]. fold u.
    rewrite lookup_insert_eq. cbn [errno heap ext trace].
    by rewrite insert_insert_eq.
  - by destruct (set_errno_error error _) as [[[] w2]|].
Qed.

(** ** Theorems *)

(** C1. On a handle whose backend state is live, when [smbc_read] returns
    [rc >= 0] (and the new offset fits [off_t]), [smbfs_file_read] returns
    [rc], advances [pos] by exactly [rc], touches nothing else on the heap
    (so no error is set) and calls the primitive once; a read of 0 bytes
    leaves the whole heap, position included, as it was. *)
Theorem smbfs_file_read_advances_pos `{Backend} (w : World) (a da : addr)
    (h : vfs_file_handler_t) (d : smbfs_file_handler_data_t)
    (buffer : ptr) (count : Z) (error : ptr) :
  live_handle w a h da d →
  let r := smbc_read (handle d) buffer count 0 (ext w) in
  0 ≤ r_rc r →
  off_t_min ≤ pos h + r_rc r ≤ off_t_max →
  smbfs_file_read (Some a) buffer count error w =
    Some (r_rc r,
          {| errno := r_errno r;
             heap := <[a := OHandler {| pos := pos h + r_rc r; data := data h |}]> (heap w);
             ext := r_ext r;
             trace := trace w ++ [EvErrnoStore 0; EvCall P_read (r_rc r)] |})
  ∧ (r_rc r = 0 →
     <[a := OHandler {| pos := pos h + r_rc r; data := data h |}]> (heap w) = heap w).
Proof.
  intros Hlive r Hrc Hfit. split.
  - rewrite (read_live w a h da d buffer count error Hlive). fold r.
    destruct (Z.ltb_spec (r_rc r) 0) as [Hneg|_]; [lia|].
    rewrite (wrap_off_t_id _ Hfit). unfold with_heap. simpl.
    by rewrite <- app_assoc.
  - intros ->. destruct Hlive as (Ha & _). rewrite Z.add_0_r.
    apply insert_id. rewrite Ha. by destruct h.
Qed.

Lemma smbfs_file_read_advances_pos_witness :
  smbfs_file_read (H := fake) (Some 1%positive) NULL 4 (Some 3%positive) (fake_world [(4, 0)]) =
    Some (4, @Build_World fake 0
               (<[1%positive := OHandler {| pos := 14; data := Some 2%positive |}]> fake_heap)
               {| script := []; served := 1 |}
               [EvErrnoStore 0; EvCall P_read 4]).
Proof.
  refine (proj1 (smbfs_file_read_advances_pos (H := fake) (fake_world [(4, 0)])
                   1%positive 2%positive {| pos := 10; data := Some 2%positive |}
                   {| handle := 3 |} NULL 4 (Some 3%positive) _ _ _)).
  - repeat split.
  - simpl. lia.
  - unfold off_t_min, off_t_max. simpl. lia.
Defined.

(** C2. On a handle whose backend state is live, when [smbc_write] returns
    [rc >= 0], [smbfs_file_write] returns [rc] and leaves the heap exactly
    as it was: the position is not advanced and no error is set. *)
Theorem smbfs_file_write_keeps_pos `{Backend} (w : World) (a da : addr)
    (h : vfs_file_handler_t) (d : smbfs_file_handler_data_t)
    (buffer : ptr) (count : Z) (error : ptr) :
  live_handle w a h da d →
  let r := smbc_write (handle d) buffer count 0 (ext w) in
  0 ≤ r_rc r →
  smbfs_file_write (Some a) buffer count error w =
    Some (r_rc r,
          {| errno := r_errno r;
             heap := heap w;
             ext := r_ext r;
             trace := trace w ++ [EvErrnoStore 0; EvCall P_write (r_rc r)] |})
  ∧ heap w !! a = Some (OHandler h).
Proof.
  intros Hlive r Hrc. split; [|by destruct Hlive].
  rewrite (write_live w a h da d buffer count error Hlive). fold r.
  destruct (Z.ltb_spec (r_rc r) 0) as [Hneg|_]; [lia|].
  by rewrite <- app_assoc.
Qed.

Lemma smbfs_file_write_keeps_pos_witness :
  smbfs_file_write (H := fake) (Some 1%positive) NULL 5 (Some 3%positive) (fake_world [(5, 0)]) =
    Some (5, @Build_World fake 0 fake_heap {| script := []; served := 1 |}
               [EvErrnoStore 0; EvCall P_write 5]).
Proof.
  refine (proj1 (smbfs_file_write_keeps_pos (H := fake) (fake_world [(5, 0)])
                   1%positive 2%positive {| pos := 10; data := Some 2%positive |}
                   {| handle := 3 |} NULL 5 (Some 3%positive) _ _)).
  - repeat split.
  - simpl. lia.
Defined.

(** The missing-handle case with an empty error variable, in full. *)
Lemma run_missing_empty `{Backend} (o : Op) (w : World) (file_handler : ptr) (e : addr) :
  missing_handler_data w file_handler = true →
  heap w !! e = Some (OErr None) →
  run o file_handler (Some e) w =
    Some (-1, with_heap w
                (<[e := OErr (Some {| domain := MC_ERROR; code := -1;
                                      message := gettext (contract_msgid o) |})]> (heap w))).
Proof.
  intros Hmiss He. rewrite (run_missing o w file_handler (Some e) Hmiss).
  by rewrite (g_set_error_empty w e _ _ _ He).
Qed.

(** C3. Whichever of Read, Write, Seek, Stat and Close is called, if the
    handle is [NULL] or its backend state is [NULL], the call returns [-1]
    and sets the error (domain [MC_ERROR], code [-1], the operation's
    message); [-1] is not an OS error number; [errno], the protocol client
    and the trace are as before, so no primitive was called and nothing
    else changed. *)
Theorem missing_handle_contract_error `{Backend} (o : Op) (w : World)
    (file_handler : ptr) (e : addr) :
  missing_handler_data w file_handler = true →
  heap w !! e = Some (OErr None) →
  run o file_handler (Some e) w =
    Some (-1,
          {| errno := errno w;
             heap := <[e := OErr (Some {| domain := MC_ERROR; code := -1;
                                          message := gettext (contract_msgid o) |})]> (heap w);
             ext := ext w;
             trace := trace w |})
  ∧ ¬ is_os_errno (-1).
Proof.
  intros Hmiss He. split.
  - exact (run_missing_empty o w file_handler e Hmiss He).
  - unfold is_os_errno. lia.
Qed.

Lemma missing_handle_contract_error_witness :
  run (H := fake) Close NULL (Some 3%positive) (fake_world [(0, 0)]) =
    Some (-1, @Build_World fake 5
                (<[3%positive := OErr (Some {| domain := 1%N; code := -1;
                     message := "smbfs: No file handler data present for closing file" |})]>
                   fake_heap)
                {| script := [(0, 0)]; served := 0 |} []).
Proof.
  refine (proj1 (missing_handle_contract_error (H := fake) Close (fake_world [(0, 0)])
                   NULL 3%positive _ _)).
  - reflexivity.
  - reflexivity.
Defined.

(** C9. On a handle whose backend state is live, when [smbc_read] returns
    [rc < 0], [smbfs_file_read] returns [rc], sets the error from the
    [errno] the primitive left (domain [MC_ERROR], that code, its
    [smbfs_strerror] text) and leaves the handler, position included, as it
    was. *)
Theorem smbfs_file_read_failure `{Backend} (w : World) (a da : addr)
    (h : vfs_file_handler_t) (d : smbfs_file_handler_data_t)
    (buffer : ptr) (count : Z) (e : addr) :
  live_handle w a h da d →
  heap w !! e = Some (OErr None) →
  let r := smbc_read (handle d) buffer count 0 (ext w) in
  r_rc r < 0 →
  ∃ w',
    smbfs_file_read (Some a) buffer count (Some e) w = Some (r_rc r, w') ∧
    heap w' = <[e := OErr (Some {| domain := MC_ERROR; code := r_errno r;
                                   message := smbfs_strerror (r_errno r) |})]> (heap w) ∧
    heap w' !! a = Some (OHandler h) ∧
    heap w' !! da = Some (OData d) ∧
    errno w' = r_errno r.
Proof.
  intros Hlive He r Hrc. pose proof Hlive as (Ha & Hda & Hd).
  rewrite (read_live w a h da d buffer count (Some e) Hlive). fold r.
  destruct (Z.ltb_spec (r_rc r) 0) as [_|Hpos]; [|lia].
  rewrite set_errno_error_empty by done. eexists. split; [done|].
  cbn [errno heap ext trace]. repeat split.
  - rewrite lookup_insert_ne; [done|congruence].
  - rewrite lookup_insert_ne; [done|congruence].
Qed.

Lemma smbfs_file_read_failure_witness :
  ∃ w', smbfs_file_read (H := fake) (Some 1%positive) NULL 4 (Some 3%positive)
          (fake_world [(-1, 5)]) = Some (-1, w') ∧
        heap w' = <[3%positive := OErr (Some {| domain := 1%N; code := 5;
                                                 message := "Input/output error" |})]> fake_heap ∧
        heap w' !! 1%positive = Some (OHandler {| pos := 10; data := Some 2%positive |}) ∧
        heap w' !! 2%positive = Some (OData {| handle := 3 |}) ∧
        errno w' = 5.
Proof.
  refine (smbfs_file_read_failure (H := fake) (fake_world [(-1, 5)])
            1%positive 2%positive {| pos := 10; data := Some 2%positive |}
            {| handle := 3 |} NULL 4 3%positive _ _ _).
  - repeat split.
  - reflexivity.
  - simpl. lia.
Defined.

(** C5. On a handle whose backend state is live, [smbfs_file_lseek] returns
    what [smbc_lseek] returned; when that is not [-1] the position becomes
    that offset and nothing else changes on the heap; when it is [-1] the
    error is set from the [errno] the primitive left and the handler,
    position included, is as it was. *)
Theorem smbfs_file_lseek_position `{Backend} (w : World) (a da : addr)
    (h : vfs_file_handler_t) (d : smbfs_file_handler_data_t)
    (offset whence : Z) (e : addr) :
  live_handle w a h da d →
  heap w !! e = Some (OErr None) →
  let r := smbc_lseek (handle d) offset whence 0 (ext w) in
  ∃ w',
    smbfs_file_lseek (Some a) offset whence (Some e) w = Some (r_rc r, w') ∧
    (r_rc r ≠ -1 →
       heap w' = <[a := OHandler {| pos := r_rc r; data := data h |}]> (heap w)) ∧
    (r_rc r = -1 →
       heap w' = <[e := OErr (Some {| domain := MC_ERROR; code := r_errno r;
                                      message := smbfs_strerror (r_errno r) |})]> (heap w) ∧
       heap w' !! a = Some (OHandler h)).
Proof.
  intros Hlive He r. pose proof Hlive as (Ha & Hda & Hd).
  rewrite (lseek_live w a h da d offset whence (Some e) Hlive). fold r.
  destruct (Z.eqb_spec (r_rc r) (-1)) as [Hfail|Hok].
  - rewrite set_errno_error_empty by done. eexists. split; [done|].
    cbn [errno heap ext trace]. split; [intros Hne; by destruct Hne|].
    intros _. split; [done|]. rewrite lookup_insert_ne; [done|congruence].
  - eexists. split; [done|]. split; [done|]. intros Hfail. by destruct Hok.
Qed.

Lemma smbfs_file_lseek_position_witness :
  ∃ w', smbfs_file_lseek (H := fake) (Some 1%positive) 0 0 (Some 3%positive)
          (fake_world [(0, 0)]) = Some (0, w') ∧
        (0 ≠ -1 →
           heap w' = <[1%positive := OHandler {| pos := 0; data := Some 2%positive |}]> fake_heap) ∧
        (0 = -1 →
           heap w' = <[3%positive := OErr (Some {| domain := 1%N; code := 0;
                                                    message := "Unknown error" |})]> fake_heap ∧
           heap w' !! 1%positive = Some (OHandler {| pos := 10; data := Some 2%positive |})).
Proof.
  refine (smbfs_file_lseek_position (H := fake) (fake_world [(0, 0)])
            1%positive 2%positive {| pos := 10; data := Some 2%positive |}
            {| handle := 3 |} 0 0 3%positive _ _).
  - repeat split.
  - reflexivity.
Defined.

(** Every operation on a live handle is defined, and only a Close whose
    primitive succeeded releases the backend state. *)
Lemma run_live_data `{Backend} (o : Op) (w : World) a h da d (error : ptr) :
  live_handle w a h da d →
  error_arg_ok w error = true →
  let r := reply_of o (handle d) w in
  ∃ w', run o (Some a) error w = Some (r_rc r, w') ∧
        match o with
        | Close => if r_rc r <? 0 then live_handle w' a h da d
                   else heap w' = delete da (heap w)
        | _ => heap w' !! da = Some (OData d)
        end ∧
        (∀ error', error_arg_ok w error' = true → failed o (r_rc r) = true →
                   error_arg_ok w' error' = true).
Proof.
  intros Hlive Hok r. pose proof Hlive as (Ha & Hda & Hd).
  assert (Ha_ne : a ≠ da) by congruence.
  destruct o as [buffer count|buffer count|offset whence|buf|]; simpl in r |- *.
  - rewrite (read_live w a h da d buffer count error Hlive). fold r.
    destruct (r_rc r <? 0).
    + edestruct (set_errno_error_defined) as (w2 & -> & Hdata & _ & Hslots); [exact Hok|].
      eexists. split; [done|]. split; [by apply Hdata|]. intros error' He' _. by apply Hslots.
    + eexists. split; [done|]. split; [|done]. simpl. by rewrite lookup_insert_ne.
  - rewrite (write_live w a h da d buffer count error Hlive). fold r.
    destruct (r_rc r <? 0).
    + edestruct (set_errno_error_defined) as (w2 & -> & Hdata & _ & Hslots); [exact Hok|].
      eexists. split; [done|]. split; [by apply Hdata|]. intros error' He' _. by apply Hslots.
    + eexists. split; [done|]. split; done.
  - rewrite (lseek_live w a h da d offset whence error Hlive). fold r.
    destruct (r_rc r =? -1).
    + edestruct (set_errno_error_defined) as (w2 & -> & Hdata & _ & Hslots); [exact Hok|].
      eexists. split; [done|]. split; [by apply Hdata|]. intros error' He' _. by apply Hslots.
    + eexists. split; [done|]. split; [|done]. simpl. by rewrite lookup_insert_ne.
  - rewrite (stat_live w a h da d buf error Hlive). fold r.
    destruct (r_rc r <? 0).
    + edestruct (set_errno_error_defined) as (w2 & -> & Hdata & _ & Hslots); [exact Hok|].
      eexists. split; [done|]. split; [by apply Hdata|]. intros error' He' _. by apply Hslots.
    + eexists. split; [done|]. split; done.
  - rewrite (close_live w a h da d error Hlive). fold r.
    destruct (r_rc r <? 0).
    + edestruct (set_errno_error_defined) as (w2 & -> & Hdata & Hhandler & Hslots); [exact Hok|].
      eexists. split; [done|]. split.
      * repeat split; [by apply Hhandler|done|by apply Hdata].
      * intros error' He' _. by apply Hslots.
    + eexists. split; [done|]. split; done.
Qed.

(** C4. On a handle whose backend state is live, [smbfs_file_close] returns
    what [smbc_close] returned and the backend state block is released
    exactly when that is not negative.  When it is negative the error is set
    from the [errno] the primitive left, the handle is still live, and a
    second Close is defined (it frees nothing twice) and releases the block
    if its primitive succeeds.  No other operation releases the block. *)
Theorem smbfs_file_close_releases `{Backend} (w : World) (a da : addr)
    (h : vfs_file_handler_t) (d : smbfs_file_handler_data_t) (e : addr) :
  live_handle w a h da d →
  heap w !! e = Some (OErr None) →
  let r := smbc_close (handle d) 0 (ext w) in
  ∃ w',
    smbfs_file_close (Some a) (Some e) w = Some (r_rc r, w') ∧
    (0 ≤ r_rc r →
       heap w' = delete da (heap w) ∧
       trace w' = trace w ++ [EvErrnoStore 0; EvCall P_close (r_rc r); EvFree da]) ∧
    (r_rc r < 0 →
       heap w' = <[e := OErr (Some {| domain := MC_ERROR; code := r_errno r;
                                      message := smbfs_strerror (r_errno r) |})]> (heap w) ∧
       live_handle w' a h da d ∧
       ∀ error', error_arg_ok w' error' = true →
         let r2 := smbc_close (handle d) 0 (ext w') in
         ∃ w2, smbfs_file_close (Some a) error' w' = Some (r_rc r2, w2) ∧
               (0 ≤ r_rc r2 → heap w2 = delete da (heap w'))) ∧
    (heap w' !! da = None ↔ 0 ≤ r_rc r) ∧
    (∀ o, o ≠ Close →
       ∃ rc1 w1, run o (Some a) (Some e) w = Some (rc1, w1) ∧
                 heap w1 !! da = Some (OData d)).
Proof.
  intros Hlive He r. pose proof Hlive as (Ha & Hda & Hd).
  assert (Hslot : error_arg_ok w (Some e) = true) by (simpl; by rewrite He).
  rewrite (close_live w a h da d (Some e) Hlive). fold r.
  destruct (Z.ltb_spec (r_rc r) 0) as [Hneg|Hpos].
  - rewrite set_errno_error_empty by done. eexists. split; [done|].
    cbn [errno heap ext trace].
    assert (Hlive' : ∀ tr, live_handle
              {| errno := r_errno r;
                 heap := <[e := OErr (Some (errno_error (r_errno r)))]> (heap w);
                 ext := r_ext r; trace := tr |} a h da d).
    { intros tr. repeat split; cbn [heap]; [|done|];
        (rewrite lookup_insert_ne; [done|congruence]). }
    split; [intros; lia|]. split; [|split].
    + intros _. split; [done|]. split; [apply Hlive'|].
      intros error' Hok'.
      destruct (run_live_data Close _ a h da d error' (Hlive' _) Hok') as (w2 & Hrun & Hfree & _).
      simpl in Hrun, Hfree. exists w2. split; [exact Hrun|].
      intros Hpos2.
      destruct (Z.ltb_spec (r_rc (smbc_close (handle d) 0 (r_ext r))) 0); [lia|done].
    + rewrite lookup_insert_ne by congruence. rewrite Hd. split; [done|lia].
    + intros o Ho.
      destruct (run_live_data o w a h da d (Some e) Hlive Hslot) as (w1 & Hrun & Hkeep & _).
      exists (r_rc (reply_of o (handle d) w)), w1. split; [done|].
      by destruct o.
  - eexists. split; [done|]. cbn [errno heap ext trace]. split; [|split; [|split]].
    + intros _. split; [done|]. by rewrite <- !app_assoc.
    + intros; lia.
    + by rewrite lookup_delete_eq.
    + intros o Ho.
      destruct (run_live_data o w a h da d (Some e) Hlive Hslot) as (w1 & Hrun & Hkeep & _).
      exists (r_rc (reply_of o (handle d) w)), w1. split; [done|].
      by destruct o.
Qed.

Lemma smbfs_file_close_releases_witness :
  ∃ w', smbfs_file_close (H := fake) (Some 1%positive) (Some 3%positive)
          (fake_world [(-1, 5); (0, 0)]) = Some (-1, w') ∧
        heap w' = <[3%positive := OErr (Some {| domain := 1%N; code := 5;
                                                 message := "Input/output error" |})]> fake_heap ∧
        live_handle w' 1%positive {| pos := 10; data := Some 2%positive |}
          2%positive {| handle := 3 |} ∧
        ∃ w2, smbfs_file_close (H := fake) (Some 1%positive) NULL w' =
                Some (r_rc (fake_prim 0 (ext w')), w2).
Proof.
  destruct (smbfs_file_close_releases (H := fake) (fake_world [(-1, 5); (0, 0)])
              1%positive 2%positive {| pos := 10; data := Some 2%positive |}
              {| handle := 3 |} 3%positive (conj eq_refl (conj eq_refl eq_refl)) eq_refl)
    as (w' & Hrun & _ & Hfail & _).
  destruct (Hfail ltac:(simpl; lia)) as (Hheap & Hlive & Hretry).
  destruct (Hretry NULL eq_refl) as (w2 & Hrun2 & _).
  exists w'. split; [exact Hrun|]. split; [exact Hheap|]. split; [exact Hlive|].
  exists w2. exact Hrun2.
Defined.

(** C6. [smbfs_file_open] returns a block that was not live before, now
    holding the numeric handle, exactly when [smbc_open] returns a
    non-negative handle (the heap is otherwise as before: the URL string has
    been released and no error is set); when [smbc_open] returns a negative
    value it returns [NULL], the heap gains no block, and the error is set
    with domain [MC_ERROR], the [errno] the primitive left and its
    [smbfs_strerror] text. *)
Theorem smbfs_file_open_state `{Backend} (w : World) (vpath : vfs_path_t)
    (flags mode : Z) (e : addr) :
  heap w !! e = Some (OErr None) →
  let r := smbc_open (smbfs_make_url (vfs_path_get_by_index vpath (-1)) true)
             flags mode 0 (ext w) in
  ∃ p w',
    smbfs_file_open vpath flags mode (Some e) w = Some (p, w') ∧
    (0 ≤ r_rc r →
       ∃ n, p = Some n ∧ heap w !! n = None ∧
            heap w' = <[n := OData {| handle := r_rc r |}]> (heap w)) ∧
    (r_rc r < 0 →
       p = NULL ∧
       heap w' = <[e := OErr (Some {| domain := MC_ERROR; code := r_errno r;
                                      message := smbfs_strerror (r_errno r) |})]> (heap w)) ∧
    (p ≠ NULL ↔ 0 ≤ r_rc r).
Proof.
  intros He r. rewrite (open_run w vpath flags mode (Some e)). fold r.
  destruct (Z.leb_spec 0 (r_rc r)) as [Hok|Hfail].
  - eexists _, _. split; [done|]. cbn [errno heap ext trace]. split; [|split].
    + intros _. eexists. split; [done|]. split; [apply fresh_block_free|done].
    + intros; lia.
    + split; [done|]. intros _. unfold NULL. congruence.
  - rewrite set_errno_error_empty by done.
    eexists _, _. split; [done|]. cbn [errno heap ext trace]. split; [|split].
    + intros; lia.
    + done.
    + split; [intros Hp; by destruct Hp|lia].
Qed.

Lemma smbfs_file_open_state_witness :
  ∃ p w',
    smbfs_file_open (H := fake) "share/file.txt"%string 2 420 (Some 3%positive)
      (fake_world [(7, 0)]) = Some (p, w') ∧
    ∃ n, p = Some n ∧ fake_heap !! n = None ∧
         heap w' = <[n := OData {| handle := 7 |}]> fake_heap.
Proof.
  destruct (smbfs_file_open_state (H := fake) (fake_world [(7, 0)])
              "share/file.txt"%string 2 420 3%positive eq_refl)
    as (p & w' & Hrun & Hok & _).
  exists p, w'. split; [exact Hrun|]. apply Hok. simpl. lia.
Defined.

(** A failing primitive, whichever the operation: the error is built from
    the [errno] it left, read as the next two steps. *)
Lemma run_live_failed `{Backend} (o : Op) (w : World) a h da d (e : addr) :
  live_handle w a h da d →
  heap w !! e = Some (OErr None) →
  let r := reply_of o (handle d) w in
  failed o (r_rc r) = true →
  run o (Some a) (Some e) w =
    Some (r_rc r,
          {| errno := r_errno r;
             heap := <[e := OErr (Some (errno_error (r_errno r)))]> (heap w);
             ext := r_ext r;
             trace := trace w ++ [EvErrnoStore 0; EvCall (prim_of o) (r_rc r);
                                  EvErrnoLoad (r_errno r); EvErrnoLoad (r_errno r)] |}).
Proof.
  intros Hlive He r Hfailed.
  destruct o as [buffer count|buffer count|offset whence|buf|]; simpl in r, Hfailed |- *;
    [rewrite (read_live w a h da d buffer count (Some e) Hlive)
    |rewrite (write_live w a h da d buffer count (Some e) Hlive)
    |rewrite (lseek_live w a h da d offset whence (Some e) Hlive)
    |rewrite (stat_live w a h da d buf (Some e) Hlive)
    |rewrite (close_live w a h da d (Some e) Hlive)];
    fold r; rewrite Hfailed; rewrite set_errno_error_empty by done;
    cbn [errno heap ext trace]; by rewrite <- !app_assoc.
Qed.

(** A succeeding primitive: [errno] is not read at all. *)
Lemma run_live_succeeded `{Backend} (o : Op) (w : World) a h da d (error : ptr) :
  live_handle w a h da d →
  let r := reply_of o (handle d) w in
  failed o (r_rc r) = false →
  ∃ w', run o (Some a) error w = Some (r_rc r, w') ∧
        trace w' = trace w ++ [EvErrnoStore 0; EvCall (prim_of o) (r_rc r)]
                     ++ match o with Close => [EvFree da] | _ => [] end.
Proof.
  intros Hlive r Hfailed.
  destruct o as [buffer count|buffer count|offset whence|buf|]; simpl in r, Hfailed |- *;
    [rewrite (read_live w a h da d buffer count error Hlive)
    |rewrite (write_live w a h da d buffer count error Hlive)
    |rewrite (lseek_live w a h da d offset whence error Hlive)
    |rewrite (stat_live w a h da d buf error Hlive)
    |rewrite (close_live w a h da d error Hlive)];
    fold r; rewrite Hfailed; eexists; (split; [done|]);
    cbn [errno heap ext trace]; by rewrite <- !app_assoc.
Qed.

(** C7, as stated, fails.  Read with a failing primitive: the step right
    before the call is the store [errno = 0], and no read of [errno]
    precedes any call.  A succeeding Read in a world whose [errno] was 5
    leaves [errno] 0: the earlier value is overwritten, not captured.  Open
    with a failing primitive: the step right after the call is the release
    of the URL string, and [errno] is read only after it. *)
Lemma errno_capture_counterexample :
  (λ x, trace x.2) <$> smbfs_file_read (H := fake) (Some 1%positive) NULL 4 (Some 3%positive)
                         (fake_world [(-1, 5)])
    = Some [EvErrnoStore 0; EvCall P_read (-1); EvErrnoLoad 5; EvErrnoLoad 5]
  ∧ load_right_before_call
      [EvErrnoStore 0; EvCall P_read (-1); EvErrnoLoad 5; EvErrnoLoad 5] = false
  ∧ errno (fake_world [(4, 0)]) = 5
  ∧ (λ x, errno x.2) <$> smbfs_file_read (H := fake) (Some 1%positive) NULL 4 (Some 3%positive)
                           (fake_world [(4, 0)]) = Some 0
  ∧ (λ x, trace x.2) <$> smbfs_file_open (H := fake) "share/file.txt"%string 2 420
                           (Some 3%positive) (fake_world [(-1, 13)])
    = Some [EvAlloc 4%positive; EvErrnoStore 0; EvCall P_open (-1); EvFree 4%positive;
            EvErrnoLoad 13; EvErrnoLoad 13]
  ∧ load_right_after_calls
      [EvAlloc 4%positive; EvErrnoStore 0; EvCall P_open (-1); EvFree 4%positive;
       EvErrnoLoad 13; EvErrnoLoad 13] = false.
Proof.
  split; [|split; [|split; [|split; [|split]]]]; vm_compute; reflexivity.
Qed.

(** C7, amended.  Each of the six operations stores 0 in [errno] as the step
    right before the call of its primitive, so the primitive runs with
    [errno] 0.  After a failing return Read, Write, Seek, Stat and Close read
    [errno] as the very next steps; Open reads it once the URL string has
    been released.  In all six the code of the error is the value read then,
    the one the primitive left.  After a succeeding return [errno] is not
    read. *)
Theorem errno_cleared_then_read `{Backend} (w : World) (a da : addr)
    (h : vfs_file_handler_t) (d : smbfs_file_handler_data_t) (e : addr) :
  live_handle w a h da d →
  heap w !! e = Some (OErr None) →
  (∀ o : Op,
     let r := reply_of o (handle d) w in
     ∃ w', run o (Some a) (Some e) w = Some (r_rc r, w') ∧
       if failed o (r_rc r)
       then trace w' = trace w ++ [EvErrnoStore 0; EvCall (prim_of o) (r_rc r);
                                   EvErrnoLoad (r_errno r); EvErrnoLoad (r_errno r)] ∧
            heap w' !! e = Some (OErr (Some {| domain := MC_ERROR; code := r_errno r;
                                               message := smbfs_strerror (r_errno r) |}))
       else trace w' = trace w ++ [EvErrnoStore 0; EvCall (prim_of o) (r_rc r)]
                         ++ match o with Close => [EvFree da] | _ => [] end) ∧
  (∀ (vpath : vfs_path_t) (flags mode : Z),
     let r := smbc_open (smbfs_make_url (vfs_path_get_by_index vpath (-1)) true)
                flags mode 0 (ext w) in
     let u := fresh (dom (heap w)) in
     ∃ p w', smbfs_file_open vpath flags mode (Some e) w = Some (p, w') ∧
       if 0 <=? r_rc r
       then trace w' = trace w ++ [EvAlloc u; EvErrnoStore 0; EvCall P_open (r_rc r);
                                   EvFree u; EvAlloc u]
       else trace w' = trace w ++ [EvAlloc u; EvErrnoStore 0; EvCall P_open (r_rc r);
                                   EvFree u; EvErrnoLoad (r_errno r); EvErrnoLoad (r_errno r)] ∧
            heap w' !! e = Some (OErr (Some {| domain := MC_ERROR; code := r_errno r;
                                               message := smbfs_strerror (r_errno r) |}))).
Proof.
  intros Hlive He. split.
  - intros o r. destruct (failed o (r_rc r)) eqn:Hfailed.
    + rewrite (run_live_failed o w a h da d e Hlive He Hfailed). fold r.
      eexists. split; [done|]. cbn [heap trace]. split; [done|].
      by rewrite lookup_insert_eq.
    + destruct (run_live_succeeded o w a h da d (Some e) Hlive Hfailed) as (w' & Hrun & Htr).
      by exists w'.
  - intros vpath flags mode r u. rewrite (open_run w vpath flags mode (Some e)). fold r u.
    destruct (0 <=? r_rc r).
    + eexists _, _. split; [done|]. cbn [trace]. by rewrite <- !app_assoc.
    + rewrite set_errno_error_empty by done. eexists _, _. split; [done|].
      cbn [errno heap ext trace]. split; [by rewrite <- !app_assoc|].
      by rewrite lookup_insert_eq.
Qed.

Lemma errno_cleared_then_read_witness :
  ∃ w', run (H := fake) (Stat NULL) (Some 1%positive) (Some 3%positive) (fake_world [(-1, 5)])
          = Some (-1, w') ∧
        trace w' = [EvErrnoStore 0; EvCall P_fstat (-1); EvErrnoLoad 5; EvErrnoLoad 5] ∧
        heap w' !! 3%positive =
          Some (OErr (Some {| domain := 1%N; code := 5; message := "Input/output error" |})).
Proof.
  exact (proj1 (errno_cleared_then_read (H := fake) (fake_world [(-1, 5)])
                  1%positive 2%positive {| pos := 10; data := Some 2%positive |}
                  {| handle := 3 |} 3%positive (conj eq_refl (conj eq_refl eq_refl)) eq_refl)
               (Stat NULL)).
Defined.

(** C8 fails on the code: Write and Seek called with no handle set the
    message of Stat, "... for fstat file", so the three cannot be told
    apart by their contract error; only Read and Close have a message of
    their own. *)
Theorem write_seek_contract_message_is_fstat :
  let fstat_error :=
    Some (-1, @Build_World fake 5
                (<[3%positive := OErr (Some {| domain := 1%N; code := -1;
                     message := "smbfs: No file handler data present for fstat file" |})]>
                   fake_heap)
                {| script := []; served := 0 |} []) in
  smbfs_file_write (H := fake) NULL NULL 5 (Some 3%positive) (fake_world []) = fstat_error
  ∧ smbfs_file_lseek (H := fake) NULL 0 0 (Some 3%positive) (fake_world []) = fstat_error
  ∧ smbfs_file_stat (H := fake) NULL NULL (Some 3%positive) (fake_world []) = fstat_error
  ∧ contract_msgid (Write NULL 5) = contract_msgid (Stat NULL)
  ∧ contract_msgid (Seek 0 0) = contract_msgid (Stat NULL).
Proof.
  intros fstat_error. subst fstat_error.
  split; [|split; [|split; [|split]]].
  - exact (run_missing_empty (H := fake) (Write NULL 5) (fake_world []) NULL 3%positive
             eq_refl eq_refl).
  - exact (run_missing_empty (H := fake) (Seek 0 0) (fake_world []) NULL 3%positive
             eq_refl eq_refl).
  - exact (run_missing_empty (H := fake) (Stat NULL) (fake_world []) NULL 3%positive
             eq_refl eq_refl).
  - reflexivity.
  - reflexivity.
Qed.

(** C10. For each of Read, Write, Seek, Stat and Close: a call on a missing
    handle and a call on a live handle whose primitive returns [-1] both
    return [-1], and both set an error of domain [MC_ERROR]; the contract
    error has code [-1], the protocol error has the [errno] the primitive
    left, which (an OS error number, or 0) is never [-1].  So the return
    value and the domain do not tell the two kinds apart, the code does.
    (The messages are a gettext translation and a [smbfs_strerror] text;
    file.c relates them in no way.) *)
Theorem contract_and_protocol_error_differ_by_code `{Backend} (o : Op) (w : World)
    (a da : addr) (h : vfs_file_handler_t) (d : smbfs_file_handler_data_t)
    (file_handler : ptr) (e : addr) :
  live_handle w a h da d →
  missing_handler_data w file_handler = true →
  heap w !! e = Some (OErr None) →
  let r := reply_of o (handle d) w in
  r_rc r = -1 →
  0 ≤ r_errno r →
  ∃ wc wp gc gp,
    run o file_handler (Some e) w = Some (-1, wc) ∧
    heap wc !! e = Some (OErr (Some gc)) ∧
    run o (Some a) (Some e) w = Some (-1, wp) ∧
    heap wp !! e = Some (OErr (Some gp)) ∧
    gc = {| domain := MC_ERROR; code := -1; message := gettext (contract_msgid o) |} ∧
    gp = {| domain := MC_ERROR; code := r_errno r; message := smbfs_strerror (r_errno r) |} ∧
    domain gc = domain gp ∧
    code gc ≠ code gp.
Proof.
  intros Hlive Hmiss He r Hrc Herrno.
  assert (Hfailed : failed o (r_rc r) = true) by (rewrite Hrc; by destruct o).
  pose proof (run_live_failed o w a h da d e Hlive He Hfailed) as Hprot.
  fold r in Hprot. rewrite Hrc in Hprot.
  eexists _, _, _, _. split; [exact (run_missing_empty o w file_handler e Hmiss He)|].
  split; [cbn [heap with_heap]; by rewrite lookup_insert_eq|].
  split; [exact Hprot|].
  split; [cbn [heap]; by rewrite lookup_insert_eq|].
  split; [done|]. split; [done|]. split; [done|].
  unfold errno_error. cbn [code]. lia.
Qed.

Lemma contract_and_protocol_error_differ_by_code_witness :
  ∃ wc wp gc gp,
    run (H := fake) (Write NULL 5) NULL (Some 3%positive) (fake_world [(-1, 5)])
      = Some (-1, wc) ∧
    heap wc !! 3%positive = Some (OErr (Some gc)) ∧
    run (H := fake) (Write NULL 5) (Some 1%positive) (Some 3%positive) (fake_world [(-1, 5)])
      = Some (-1, wp) ∧
    heap wp !! 3%positive = Some (OErr (Some gp)) ∧
    gc = {| domain := 1%N; code := -1;
            message := "smbfs: No file handler data present for fstat file" |} ∧
    gp = {| domain := 1%N; code := 5; message := "Input/output error" |} ∧
    domain gc = domain gp ∧
    code gc ≠ code gp.
Proof.
  refine (contract_and_protocol_error_differ_by_code (H := fake) (Write NULL 5)
            (fake_world [(-1, 5)]) 1%positive 2%positive
            {| pos := 10; data := Some 2%positive |} {| handle := 3 |}
            NULL 3%positive _ _ _ _ _).
  - repeat split.
  - reflexivity.
  - reflexivity.
  - reflexivity.
  - simpl. lia.
Defined.

(** ** Further properties of the operations *)

Lemma wrap_off_t_range (z : Z) : off_t_min ≤ wrap_off_t z ≤ off_t_max.
Proof.
  unfold off_t_min, off_t_max, wrap_off_t.
  pose proof (Z.mod_pos_bound (z + 2 ^ 63) (2 ^ 64) ltac:(lia)). lia.
Qed.

Lemma wrap_off_t_add_l (x y : Z) : wrap_off_t (wrap_off_t x + y) = wrap_off_t (x + y).
Proof.
  unfold wrap_off_t. f_equal.
  replace ((x + 2 ^ 63) mod 2 ^ 64 - 2 ^ 63 + y + 2 ^ 63)
    with ((x + 2 ^ 63) mod 2 ^ 64 + y) by lia.
  rewrite Zplus_mod_idemp_l. f_equal. lia.
Qed.

Lemma bytes_read_nonneg (rcs : list Z) : 0 ≤ bytes_read rcs.
Proof.
  induction rcs as [|rc rest IH]; simpl; [lia|].
  destruct (Z.ltb_spec rc 0); lia.
Qed.

(** One Read on a live handle: always defined, the handle stays live, and
    the position moves by what was read. *)
Lemma read_step `{Backend} (w : World) a h da d buffer count error :
  live_handle w a h da d →
  error_arg_ok w error = true →
  ∃ rc w' h',
    smbfs_file_read (Some a) buffer count error w = Some (rc, w') ∧
    live_handle w' a h' da d ∧
    error_arg_ok w' error = true ∧
    pos h' = if rc <? 0 then pos h else wrap_off_t (pos h + rc).
Proof.
  intros Hlive Hok. pose proof Hlive as (Ha & Hda & Hd).
  rewrite (read_live w a h da d buffer count error Hlive).
  set (r := smbc_read (handle d) buffer count 0 (ext w)).
  simpl. destruct (r_rc r <? 0) eqn:Hrc.
  - edestruct set_errno_error_defined as (w2 & -> & Hdata & Hhandler & Hslots); [exact Hok|].
    exists (r_rc r), w2, h. split; [done|]. split.
    { repeat split; [by apply Hhandler|done|by apply Hdata]. }
    split; [by apply Hslots|]. by rewrite Hrc.
  - eexists (r_rc r), _, {| pos := wrap_off_t (pos h + r_rc r); data := data h |}.
    split; [done|]. split.
    { repeat split; cbn [heap with_heap data].
      - by rewrite lookup_insert_eq.
      - done.
      - rewrite lookup_insert_ne; [done|congruence]. }
    split; [|by rewrite Hrc].
    destruct error as [e|]; [|done]. simpl in Hok |- *.
    destruct (decide (a = e)) as [<-|Hne].
    + by rewrite Ha in Hok.
    + by rewrite lookup_insert_ne.
Qed.

(** Read advances the position monotonically: after any number of
    consecutive Reads on a live handle, however each of them ended, the
    position is the starting one plus the bytes delivered, in [off_t]
    arithmetic; the handle is still live.  While the sum fits [off_t] the
    position is exactly that sum. *)
Theorem read_all_position `{Backend} (counts : list Z) (w : World) (a da : addr)
    (h : vfs_file_handler_t) (d : smbfs_file_handler_data_t) (buffer error : ptr) :
  live_handle w a h da d →
  error_arg_ok w error = true →
  off_t_min ≤ pos h ≤ off_t_max →
  ∃ rcs w' h',
    read_all (Some a) buffer counts error w = Some (rcs, w') ∧
    length rcs = length counts ∧
    live_handle w' a h' da d ∧
    pos h' = wrap_off_t (pos h + bytes_read rcs) ∧
    (pos h + bytes_read rcs ≤ off_t_max → pos h' = pos h + bytes_read rcs).
Proof.
  revert w h. induction counts as [|count rest IH]; intros w h Hlive Hok Hrange.
  - exists [], w, h. simpl. rewrite Z.add_0_r.
    split; [done|]. split; [done|]. split; [done|].
    split; [symmetry; by apply wrap_off_t_id|done].
  - destruct (read_step w a h da d buffer count error Hlive Hok)
      as (rc & w1 & h1 & Hrun & Hlive1 & Hok1 & Hpos1).
    assert (Hrange1 : off_t_min ≤ pos h1 ≤ off_t_max).
    { rewrite Hpos1. destruct (rc <? 0); [done|apply wrap_off_t_range]. }
    destruct (IH w1 h1 Hlive1 Hok1 Hrange1) as (rcs & w' & h' & Hrest & Hlen & Hlive' & Hpos' & _).
    exists (rc :: rcs), w', h'.
    assert (Hwrap : pos h' = wrap_off_t (pos h + bytes_read (rc :: rcs))).
    { rewrite Hpos', Hpos1. simpl. destruct (rc <? 0).
      - by rewrite Z.add_0_l.
      - rewrite wrap_off_t_add_l. f_equal. lia. }
    split; [|split; [|split; [|split]]].
    + simpl. unfold mbind, M_bind. rewrite Hrun, Hrest. done.
    + simpl. by rewrite Hlen.
    + done.
    + done.
    + intros Hfit. rewrite Hwrap. apply wrap_off_t_id.
      pose proof (bytes_read_nonneg (rc :: rcs)). lia.
Qed.

Lemma read_all_position_witness :
  ∃ rcs w' h',
    read_all (H := fake) (Some 1%positive) NULL [4; 4; 4] (Some 3%positive)
      (fake_world [(4, 0); (-1, 5); (2, 0)]) = Some (rcs, w') ∧
    length rcs = 3%nat ∧
    live_handle w' 1%positive h' 2%positive {| handle := 3 |} ∧
    pos h' = wrap_off_t (10 + bytes_read rcs) ∧
    (10 + bytes_read rcs ≤ off_t_max → pos h' = 10 + bytes_read rcs).
Proof.
  refine (read_all_position (H := fake) [4; 4; 4] (fake_world [(4, 0); (-1, 5); (2, 0)])
            1%positive 2%positive {| pos := 10; data := Some 2%positive |}
            {| handle := 3 |} NULL (Some 3%positive) _ _ _).
  - repeat split.
  - reflexivity.
  - unfold off_t_min, off_t_max. simpl. lia.
Defined.



(** The failure path of Write mirrors Read: when [smbc_write] returns
    [rc < 0], [smbfs_file_write] returns [rc], sets the error from the
    [errno] the primitive left, and leaves the handler as it was. *)
Theorem smbfs_file_write_failure `{Backend} (w : World) (a da : addr)
    (h : vfs_file_handler_t) (d : smbfs_file_handler_data_t)
    (buffer : ptr) (count : Z) (e : addr) :
  live_handle w a h da d →
  heap w !! e = Some (OErr None) →
  let r := smbc_write (handle d) buffer count 0 (ext w) in
  r_rc r < 0 →
  ∃ w',
    smbfs_file_write (Some a) buffer count (Some e) w = Some (r_rc r, w') ∧
    heap w' = <[e := OErr (Some {| domain := MC_ERROR; code := r_errno r;
                                   message := smbfs_strerror (r_errno r) |})]> (heap w) ∧
    live_handle w' a h da d.
Proof.
  intros Hlive He r Hrc. pose proof Hlive as (Ha & Hda & Hd).
  rewrite (write_live w a h da d buffer count (Some e) Hlive). fold r.
  destruct (Z.ltb_spec (r_rc r) 0) as [_|Hpos]; [|lia].
  rewrite set_errno_error_empty by done. eexists. split; [done|].
  cbn [errno heap ext trace]. split; [done|].
  repeat split; cbn [heap]; [|done|]; (rewrite lookup_insert_ne; [done|congruence]).
Qed.

Lemma smbfs_file_write_failure_witness :
  ∃ w',
    smbfs_file_write (H := fake) (Some 1%positive) NULL 5 (Some 3%positive)
      (fake_world [(-1, 13)]) = Some (-1, w') ∧
    heap w' = <[3%positive := OErr (Some {| domain := 1%N; code := 13;
                                             message := "Permission denied" |})]> fake_heap ∧
    live_handle w' 1%positive {| pos := 10; data := Some 2%positive |}
      2%positive {| handle := 3 |}.
Proof.
  refine (smbfs_file_write_failure (H := fake) (fake_world [(-1, 13)])
            1%positive 2%positive {| pos := 10; data := Some 2%positive |}
            {| handle := 3 |} NULL 5 3%positive _ _ _).
  - repeat split.
  - reflexivity.
  - simpl. lia.
Defined.

(** The URL string of Open is transient: whatever [smbc_open] returns, the
    block allocated for it is released before Open returns, so every string
    block live afterwards was live before. *)
Theorem smbfs_file_open_releases_url `{Backend} (w : World) (vpath : vfs_path_t)
    (flags mode : Z) (error : ptr) :
  error_arg_ok w error = true →
  ∃ p w' u rest,
    smbfs_file_open vpath flags mode error w = Some (p, w') ∧
    heap w !! u = None ∧
    trace w' = trace w ++ [EvAlloc u; EvErrnoStore 0;
                           EvCall P_open (r_rc (smbc_open
                             (smbfs_make_url (vfs_path_get_by_index vpath (-1)) true)
                             flags mode 0 (ext w)));
                           EvFree u] ++ rest ∧
    ∀ b s, heap w' !! b = Some (OStr s) → heap w !! b = Some (OStr s).
Proof.
  intros Hok. rewrite (open_run w vpath flags mode error).
  set (r := smbc_open _ flags mode 0 (ext w)). set (u := fresh (dom (heap w))).
  pose proof (fresh_block_free w) as Hu. fold u in Hu.
  destruct (0 <=? r_rc r).
  - eexists _, _, u, _. split; [done|]. split; [done|]. cbn [heap trace].
    split; [by rewrite <- app_assoc|].
    intros b s. destruct (decide (u = b)) as [<-|Hne].
    + by rewrite lookup_insert_eq.
    + by rewrite lookup_insert_ne.
  - unfold set_errno_error, load_errno, g_set_error, mbind, M_bind.
    cbn [errno heap ext trace].
    destruct error as [e|]; simpl in Hok.
    + destruct (heap w !! e) as [[| | |[g|]]|] eqn:He; try done.
      * eexists _, _, u, _. split; [done|]. split; [done|]. cbn [heap trace].
        split; [by rewrite <- !app_assoc|done].
      * eexists _, _, u, _. split; [done|]. split; [done|]. cbn [heap trace with_heap].
        split; [by rewrite <- !app_assoc|].
        intros b s. destruct (decide (e = b)) as [<-|Hne].
        -- by rewrite lookup_insert_eq.
        -- by rewrite lookup_insert_ne.
    + eexists _, _, u, _. split; [done|]. split; [done|]. cbn [heap trace].
      split; [by rewrite <- !app_assoc|done].
Qed.

Lemma smbfs_file_open_releases_url_witness :
  ∃ p w' u rest,
    smbfs_file_open (H := fake) "share/file.txt"%string 2 420 NULL (fake_world [(-1, 13)])
      = Some (p, w') ∧
    fake_heap !! u = None ∧
    trace w' = [EvAlloc u; EvErrnoStore 0; EvCall P_open (-1); EvFree u] ++ rest ∧
    ∀ b s, heap w' !! b = Some (OStr s) → fake_heap !! b = Some (OStr s).
Proof.
  exact (smbfs_file_open_releases_url (H := fake) (fake_world [(-1, 13)])
           "share/file.txt"%string 2 420 NULL eq_refl).
Defined.

(** ** Frames, sequences and lifetimes *)

(** Building the error from [errno] changes the error variable at most:
    [errno], the client and every other block are as before, and [errno] is
    read twice. *)
Lemma set_errno_error_frame `{Backend} (w : World) (error : ptr) :
  error_arg_ok w error = true →
  ∃ w', set_errno_error error w = Some (tt, w') ∧
        errno w' = errno w ∧ ext w' = ext w ∧
        trace w' = trace w ++ [EvErrnoLoad (errno w); EvErrnoLoad (errno w)] ∧
        (∀ b, error ≠ Some b → heap w' !! b = heap w !! b) ∧
        error_arg_ok w' error = true.
Proof.
  unfold error_arg_ok, set_errno_error, load_errno, g_set_error, mbind, M_bind.
  cbn [errno heap ext trace].
  destruct error as [e|].
  - destruct (heap w !! e) as [[| | |[g|]]|] eqn:He; try done; intros _.
    + eexists. split; [done|]. cbn [errno heap ext trace].
      rewrite <- app_assoc, He. by repeat split.
    + eexists. split; [done|]. cbn [errno heap ext trace with_heap].
      rewrite <- app_assoc, lookup_insert_eq. repeat split; try done.
      intros b Hb. rewrite lookup_insert_ne; [done|congruence].
  - intros _. eexists. split; [done|]. cbn [errno heap ext trace].
    rewrite <- app_assoc. by repeat split.
Qed.

Lemma error_arg_not_handler `{Backend} (w : World) (error : ptr) b :
  error_arg_ok w error = true →
  (∃ h, heap w !! b = Some (OHandler h)) ∨ (∃ d, heap w !! b = Some (OData d)) →
  error ≠ Some b.
Proof.
  intros Hok Hb ->. simpl in Hok.
  destruct Hb as [[h Hb]|[d Hb]]; by rewrite Hb in Hok.
Qed.

Lemma handler_eta (h : vfs_file_handler_t) : {| pos := pos h; data := data h |} = h.
Proof. by destruct h. Qed.

(** One operation on a live handle, in full: what it returns, what it
    calls, and what it leaves of the handler, the backend state and every
    other block. *)
Lemma run_live_step `{Backend} (o : Op) (w : World) a h da d (error : ptr) :
  live_handle w a h da d →
  error_arg_ok w error = true →
  let r := reply_of o (handle d) w in
  ∃ w' t,
    run o (Some a) error w = Some (r_rc r, w') ∧
    ext w' = r_ext r ∧ errno w' = r_errno r ∧
    trace w' = trace w ++ t ∧ calls t = [prim_of o] ∧
    heap w' !! a =
      Some (OHandler {| pos := next_pos o (r_rc r) (pos h); data := data h |}) ∧
    heap w' !! da =
      (if is_close o && negb (failed o (r_rc r)) then None else Some (OData d)) ∧
    (∀ b, b ≠ a → b ≠ da → error ≠ Some b → heap w' !! b = heap w !! b) ∧
    error_arg_ok w' error = true.
Proof.
  intros Hlive Hok r. pose proof Hlive as (Ha & Hda & Hd).
  assert (Hne : a ≠ da) by congruence.
  assert (Hea : error ≠ Some a) by (eapply error_arg_not_handler; eauto).
  assert (Heda : error ≠ Some da) by (eapply error_arg_not_handler; eauto).
  assert (Hfail : ∀ p,
    let w1 := {| errno := r_errno r; heap := heap w; ext := r_ext r;
                 trace := (trace w ++ [EvErrnoStore 0]) ++ [EvCall p (r_rc r)] |} in
    ∃ w2, set_errno_error error w1 = Some (tt, w2) ∧
          ext w2 = r_ext r ∧ errno w2 = r_errno r ∧
          trace w2 = trace w ++ [EvErrnoStore 0; EvCall p (r_rc r);
                                 EvErrnoLoad (r_errno r); EvErrnoLoad (r_errno r)] ∧
          heap w2 !! a = Some (OHandler h) ∧ heap w2 !! da = Some (OData d) ∧
          (∀ b, error ≠ Some b → heap w2 !! b = heap w !! b) ∧
          error_arg_ok w2 error = true).
  { intros p w1.
    destruct (set_errno_error_frame w1 error Hok) as (w2 & Hrun & He & Hx & Ht & Hf & Hok2).
    exists w2. split; [done|]. split; [done|]. split; [done|].
    split; [rewrite Ht; cbn [trace errno w1]; by rewrite <- !app_assoc|].
    split; [by rewrite Hf|]. split; [by rewrite Hf|]. by split. }
  destruct o as [buffer count|buffer count|offset whence|buf|]; simpl in r |- *.
  - rewrite (read_live w a h da d buffer count error Hlive). fold r.
    destruct (r_rc r <? 0).
    + destruct (Hfail P_read) as (w2 & -> & Hx & He & Ht & Hha & Hhd & Hf & Hok2).
      exists w2. eexists. rewrite handler_eta. repeat split; try done. by intros; apply Hf.
    + eexists _, _. split; [done|]. cbn [errno heap ext trace with_heap].
      split; [done|]. split; [done|]. split; [by rewrite <- app_assoc|]. split; [done|].
      split; [by rewrite lookup_insert_eq|]. split; [by rewrite lookup_insert_ne|].
      split; [intros b Hba _ _; by rewrite lookup_insert_ne|].
      destruct error as [e|]; [|done]. simpl in Hok |- *.
      rewrite lookup_insert_ne; [done|congruence].
  - rewrite (write_live w a h da d buffer count error Hlive). fold r.
    destruct (r_rc r <? 0).
    + destruct (Hfail P_write) as (w2 & -> & Hx & He & Ht & Hha & Hhd & Hf & Hok2).
      exists w2. eexists. rewrite handler_eta. repeat split; try done. by intros; apply Hf.
    + eexists _, _. split; [done|]. cbn [errno heap ext trace].
      rewrite handler_eta. split; [done|]. split; [done|].
      split; [by rewrite <- app_assoc|]. by repeat split.
  - rewrite (lseek_live w a h da d offset whence error Hlive). fold r.
    destruct (r_rc r =? -1).
    + destruct (Hfail P_lseek) as (w2 & -> & Hx & He & Ht & Hha & Hhd & Hf & Hok2).
      exists w2. eexists. rewrite handler_eta. repeat split; try done. by intros; apply Hf.
    + eexists _, _. split; [done|]. cbn [errno heap ext trace with_heap].
      split; [done|]. split; [done|]. split; [by rewrite <- app_assoc|]. split; [done|].
      split; [by rewrite lookup_insert_eq|]. split; [by rewrite lookup_insert_ne|].
      split; [intros b Hba _ _; by rewrite lookup_insert_ne|].
      destruct error as [e|]; [|done]. simpl in Hok |- *.
      rewrite lookup_insert_ne; [done|congruence].
  - rewrite (stat_live w a h da d buf error Hlive). fold r.
    destruct (r_rc r <? 0).
    + destruct (Hfail P_fstat) as (w2 & -> & Hx & He & Ht & Hha & Hhd & Hf & Hok2).
      exists w2. eexists. rewrite handler_eta. repeat split; try done. by intros; apply Hf.
    + eexists _, _. split; [done|]. cbn [errno heap ext trace].
      rewrite handler_eta. split; [done|]. split; [done|].
      split; [by rewrite <- app_assoc|]. by repeat split.
  - rewrite (close_live w a h da d error Hlive). fold r.
    destruct (r_rc r <? 0).
    + destruct (Hfail P_close) as (w2 & -> & Hx & He & Ht & Hha & Hhd & Hf & Hok2).
      exists w2. eexists. rewrite handler_eta. repeat split; try done. by intros; apply Hf.
    + eexists _, _. split; [done|]. cbn [errno heap ext trace].
      rewrite handler_eta. split; [done|]. split; [done|].
      split; [by rewrite <- !app_assoc|]. split; [done|].
      split; [by rewrite lookup_delete_ne|]. split; [by rewrite lookup_delete_eq|].
      split; [intros b _ Hbd _; by rewrite lookup_delete_ne|].
      destruct error as [e|]; [|done]. simpl in Hok |- *.
      rewrite lookup_delete_ne; [done|congruence].
Qed.

(** A sequence of operations other than Close on a live handle: all of them
    are defined, the handle stays live with the same backend state, the
    position is the one [track_pos] computes, and no other block changes. *)
Lemma run_all_live `{Backend} (ops : list Op) (w : World) a h da d (error : ptr) :
  live_handle w a h da d →
  error_arg_ok w error = true →
  Forall (λ o, is_close o = false) ops →
  ∃ rcs w',
    run_all (Some a) ops error w = Some (rcs, w') ∧
    length rcs = length ops ∧
    live_handle w' a {| pos := track_pos (pos h) ops rcs; data := data h |} da d ∧
    (∀ b, b ≠ a → b ≠ da → error ≠ Some b → heap w' !! b = heap w !! b).
Proof.
  intros Hlive Hok Hops. revert w h Hlive Hok.
  induction Hops as [|o rest Ho _ IH]; intros w h Hlive Hok.
  - exists [], w. simpl. rewrite handler_eta.
    split; [done|]. split; [done|]. split; [exact Hlive|done].
  - destruct (run_live_step o w a h da d error Hlive Hok)
      as (w1 & t & Hrun & _ & _ & _ & _ & Ha1 & Hd1 & Hframe1 & Hok1).
    set (rc := r_rc (reply_of o (handle d) w)) in *.
    rewrite Ho in Hd1. simpl in Hd1.
    assert (Hlive1 : live_handle w1 a {| pos := next_pos o rc (pos h); data := data h |} da d).
    { destruct Hlive as (_ & Hda & _). by repeat split. }
    destruct (IH w1 _ Hlive1 Hok1) as (rcs & w' & Hrest & Hlen & Hlive' & Hframe').
    exists (rc :: rcs), w'. split; [|split; [|split]].
    + simpl. unfold mbind, M_bind. by rewrite Hrun, Hrest.
    + simpl. by rewrite Hlen.
    + exact Hlive'.
    + intros b Hba Hbd Hbe. rewrite Hframe', Hframe1; done.
Qed.

(** The position after any sequence of Read, Write, Seek and Stat on a live
    handle: every call is defined, the handle stays live on the same backend
    state, and [pos] is the starting position moved by each Read that
    succeeded (plus the bytes read) and each Seek that succeeded (to the
    offset returned); Write, Stat and failed calls do not move it. *)
Theorem run_all_tracks_position `{Backend} (ops : list Op) (w : World) (a da : addr)
    (h : vfs_file_handler_t) (d : smbfs_file_handler_data_t) (error : ptr) :
  live_handle w a h da d →
  error_arg_ok w error = true →
  Forall (λ o, is_close o = false) ops →
  ∃ rcs w',
    run_all (Some a) ops error w = Some (rcs, w') ∧
    length rcs = length ops ∧
    live_handle w' a {| pos := track_pos (pos h) ops rcs; data := data h |} da d.
Proof.
  intros Hlive Hok Hops.
  destruct (run_all_live ops w a h da d error Hlive Hok Hops)
    as (rcs & w' & Hrun & Hlen & Hlive' & _).
  by exists rcs, w'.
Qed.

Lemma run_all_tracks_position_witness :
  ∃ rcs w',
    run_all (H := fake) (Some 1%positive) [Write NULL 5; Seek 0 0; Read NULL 5; Stat NULL]
      (Some 3%positive) (fake_world [(5, 0); (0, 0); (5, 0); (-1, 5)]) = Some (rcs, w') ∧
    length rcs = 4%nat ∧
    live_handle w' 1%positive
      {| pos := track_pos 10 [Write NULL 5; Seek 0 0; Read NULL 5; Stat NULL] rcs;
         data := Some 2%positive |}
      2%positive {| handle := 3 |}.
Proof.
  refine (run_all_tracks_position (H := fake) [Write NULL 5; Seek 0 0; Read NULL 5; Stat NULL]
            (fake_world [(5, 0); (0, 0); (5, 0); (-1, 5)])
            1%positive 2%positive {| pos := 10; data := Some 2%positive |}
            {| handle := 3 |} (Some 3%positive) _ _ _).
  - repeat split.
  - reflexivity.
  - repeat constructor.
Defined.



(** A stale [errno] never reaches a primitive or an error: on a live handle
    the outcome of every operation (the return value and the whole world
    afterwards) is the same whatever [errno] held on entry; so is Open's. *)
Theorem outcome_ignores_errno_on_entry `{Backend} (w : World) (a da : addr)
    (h : vfs_file_handler_t) (d : smbfs_file_handler_data_t) (error : ptr) (v : Z) :
  live_handle w a h da d →
  (∀ o, run o (Some a) error (with_errno w v) = run o (Some a) error w) ∧
  (∀ vpath flags mode,
     smbfs_file_open vpath flags mode error (with_errno w v) =
     smbfs_file_open vpath flags mode error w).
Proof.
  intros Hlive.
  assert (Hlive' : live_handle (with_errno w v) a h da d) by exact Hlive.
  split.
  - intros [buffer count|buffer count|offset whence|buf|]; simpl.
    + by rewrite (read_live _ a h da d buffer count error Hlive'),
                 (read_live _ a h da d buffer count error Hlive).
    + by rewrite (write_live _ a h da d buffer count error Hlive'),
                 (write_live _ a h da d buffer count error Hlive).
    + by rewrite (lseek_live _ a h da d offset whence error Hlive'),
                 (lseek_live _ a h da d offset whence error Hlive).
    + by rewrite (stat_live _ a h da d buf error Hlive'),
                 (stat_live _ a h da d buf error Hlive).
    + by rewrite (close_live _ a h da d error Hlive'),
                 (close_live _ a h da d error Hlive).
  - intros vpath flags mode.
    by rewrite (open_run (with_errno w v)), (open_run w).
Qed.

Lemma outcome_ignores_errno_on_entry_witness :
  run (H := fake) (Read NULL 4) (Some 1%positive) (Some 3%positive)
      (with_errno (fake_world [(-1, 5)]) 110) =
  run (H := fake) (Read NULL 4) (Some 1%positive) (Some 3%positive) (fake_world [(-1, 5)]).
Proof.
  refine (proj1 (outcome_ignores_errno_on_entry (H := fake) (fake_world [(-1, 5)])
                   1%positive 2%positive {| pos := 10; data := Some 2%positive |}
                   {| handle := 3 |} (Some 3%positive) 110 _) (Read NULL 4)).
  repeat split.
Defined.

(** No operation retries: on a live handle each of Read, Write, Seek, Stat
    and Close calls its own primitive exactly once and no other, whether the
    primitive fails or not; Open calls [smbc_open] exactly once. *)
Theorem one_primitive_call_per_operation `{Backend} (w : World) (a da : addr)
    (h : vfs_file_handler_t) (d : smbfs_file_handler_data_t) (error : ptr) :
  live_handle w a h da d →
  error_arg_ok w error = true →
  (∀ o, ∃ rc w' t, run o (Some a) error w = Some (rc, w') ∧
                   trace w' = trace w ++ t ∧ calls t = [prim_of o]) ∧
  (∀ vpath flags mode,
     ∃ p w' t, smbfs_file_open vpath flags mode error w = Some (p, w') ∧
               trace w' = trace w ++ t ∧ calls t = [P_open]).
Proof.
  intros Hlive Hok. split.
  - intros o.
    destruct (run_live_step o w a h da d error Hlive Hok)
      as (w' & t & Hrun & _ & _ & Ht & Hcalls & _).
    by eexists _, w', t.
  - intros vpath flags mode. rewrite (open_run w vpath flags mode error).
    set (r := smbc_open _ flags mode 0 (ext w)). set (u := fresh (dom (heap w))).
    destruct (0 <=? r_rc r).
    + eexists _, _, _. split; [done|]. cbn [trace]. split; [by rewrite <- app_assoc|done].
    + edestruct (set_errno_error_frame) as (w2 & -> & _ & _ & Ht & _); [exact Hok|].
      eexists _, w2, _. split; [done|]. rewrite Ht. cbn [trace errno].
      split; [by rewrite <- app_assoc|done].
Qed.

Lemma one_primitive_call_per_operation_witness :
  ∃ rc w' t, run (H := fake) (Seek 0 2) (Some 1%positive) (Some 3%positive)
               (fake_world [(-1, 5)]) = Some (rc, w') ∧
             trace w' = [] ++ t ∧ calls t = [P_lseek].
Proof.
  refine (proj1 (one_primitive_call_per_operation (H := fake) (fake_world [(-1, 5)])
                   1%positive 2%positive {| pos := 10; data := Some 2%positive |}
                   {| handle := 3 |} (Some 3%positive) _ _) (Seek 0 2)).
  - repeat split.
  - reflexivity.
Defined.

(** An operation on a handler whose backend state pointer is not [NULL]
    but whose block is no longer live passes the guard and reads the
    released block: undefined. *)
Lemma run_dangling `{Backend} (o : Op) (w : World) a h da (error : ptr) :
  heap w !! a = Some (OHandler h) →
  data h = Some da →
  heap w !! da = None →
  run o (Some a) error w = None.
Proof.
  intros Ha Hda Hd.
  assert (Hguard : no_handler_data (Some a) w = Some (false, w)).
  { unfold no_handler_data, deref_handler, mbind, M_bind, mret, M_ret.
    by rewrite Ha, Hda. }
  destruct o; simpl;
    [unfold smbfs_file_read|unfold smbfs_file_write|unfold smbfs_file_lseek
    |unfold smbfs_file_stat|unfold smbfs_file_close];
    unfold mbind at 1, M_bind at 1; rewrite Hguard;
    unfold mbind, M_bind, deref_handler, store_errno, deref_data;
    rewrite Ha; cbn [errno heap ext trace]; by rewrite Hda, Hd.
Qed.

(** Close does not reset [file_handler->data]: after a Close whose primitive
    succeeded the handler still holds the pointer to the released block, so
    the "no handler data" guard does not fire and every further operation
    on that handle, a second Close included, uses the released block
    (undefined; in Close, a double free). *)
Theorem use_after_close_is_undefined `{Backend} (w : World) (a da : addr)
    (h : vfs_file_handler_t) (d : smbfs_file_handler_data_t) (error : ptr) :
  live_handle w a h da d →
  let r := smbc_close (handle d) 0 (ext w) in
  0 ≤ r_rc r →
  ∃ w',
    smbfs_file_close (Some a) error w = Some (r_rc r, w') ∧
    heap w' !! a = Some (OHandler h) ∧
    data h = Some da ∧
    heap w' !! da = None ∧
    missing_handler_data w' (Some a) = false ∧
    ∀ o error', run o (Some a) error' w' = None.
Proof.
  intros Hlive r Hrc. pose proof Hlive as (Ha & Hda & Hd).
  assert (Hne : a ≠ da) by congruence.
  rewrite (close_live w a h da d error Hlive). fold r.
  destruct (Z.ltb_spec (r_rc r) 0) as [Hneg|_]; [lia|].
  eexists. split; [done|]. cbn [heap].
  assert (Ha' : delete da (heap w) !! a = Some (OHandler h)) by by rewrite lookup_delete_ne.
  assert (Hd' : delete da (heap w) !! da = None) by apply lookup_delete_eq.
  split; [done|]. split; [done|]. split; [done|]. split.
  - unfold missing_handler_data. cbn [heap]. by rewrite Ha', Hda.
  - intros o error'. by apply (run_dangling o _ a h da error').
Qed.

Lemma use_after_close_is_undefined_witness :
  ∃ w',
    smbfs_file_close (H := fake) (Some 1%positive) (Some 3%positive) (fake_world [(0, 0)])
      = Some (0, w') ∧
    heap w' !! 2%positive = None ∧
    smbfs_file_close (H := fake) (Some 1%positive) (Some 3%positive) w' = None.
Proof.
  destruct (use_after_close_is_undefined (H := fake) (fake_world [(0, 0)])
              1%positive 2%positive {| pos := 10; data := Some 2%positive |}
              {| handle := 3 |} (Some 3%positive) (conj eq_refl (conj eq_refl eq_refl))
              ltac:(simpl; lia))
    as (w' & Hrun & _ & _ & Hgone & _ & Hundef).
  exists w'. split; [exact Hrun|]. split; [exact Hgone|].
  exact (Hundef Close (Some 3%positive)).
Defined.

(** Open and Close pair up.  When Open succeeds and the caller stores the
    returned state in a handler (position 0), Close on that handler passes
    to [smbc_close] the very numeric handle [smbc_open] returned, and if
    that call succeeds the heap is the one before Open apart from the
    caller's handler: nothing Open allocated is left. *)
Theorem open_then_close_leaves_no_block `{Backend} (w : World) (vpath : vfs_path_t)
    (flags mode : Z) (a : addr) (h : vfs_file_handler_t) (error : ptr) :
  heap w !! a = Some (OHandler h) →
  error_arg_ok w error = true →
  let r := smbc_open (smbfs_make_url (vfs_path_get_by_index vpath (-1)) true)
             flags mode 0 (ext w) in
  0 ≤ r_rc r →
  ∃ n w1,
    smbfs_file_open vpath flags mode error w = Some (Some n, w1) ∧
    let attached := OHandler {| pos := 0; data := Some n |} in
    let w2 := with_heap w1 (<[a := attached]> (heap w1)) in
    let r2 := smbc_close (r_rc r) 0 (r_ext r) in
    ∃ w3,
      smbfs_file_close (Some a) error w2 = Some (r_rc r2, w3) ∧
      (0 ≤ r_rc r2 → heap w3 = <[a := attached]> (heap w)) ∧
      (r_rc r2 < 0 → heap w3 !! n = Some (OData {| handle := r_rc r |})).
Proof.
  intros Ha Hok r Hrc. rewrite (open_run w vpath flags mode error). fold r.
  set (u := fresh (dom (heap w))).
  pose proof (fresh_block_free w) as Hu. fold u in Hu.
  assert (Hua : u ≠ a) by congruence.
  destruct (Z.leb_spec 0 (r_rc r)) as [_|Hneg]; [|lia].
  eexists u, _. split; [done|]. cbv zeta.
  match goal with |- ∃ w3, smbfs_file_close _ _ ?W = _ ∧ _ => set (w2 := W) end.
  assert (Hheap2 : heap w2 = <[a := OHandler {| pos := 0; data := Some u |}]>
                               (<[u := OData {| handle := r_rc r |}]> (heap w))) by done.
  assert (Hext2 : ext w2 = r_ext r) by done.
  assert (Hlive2 : live_handle w2 a {| pos := 0; data := Some u |} u {| handle := r_rc r |}).
  { repeat split; rewrite ?Hheap2; cbn [data].
    - by rewrite lookup_insert_eq.
    - rewrite lookup_insert_ne by congruence. by rewrite lookup_insert_eq. }
  assert (Hok2 : error_arg_ok w2 error = true).
  { destruct error as [e|]; [|done]. unfold error_arg_ok in Hok |- *. rewrite Hheap2.
    destruct (heap w !! e) as [[| | |g]|] eqn:He; try done.
    rewrite !lookup_insert_ne by congruence. by rewrite He. }
  rewrite (close_live w2 a _ u _ error Hlive2). cbn [handle]. rewrite Hext2.
  set (r2 := smbc_close (r_rc r) 0 (r_ext r)).
  destruct (Z.ltb_spec (r_rc r2) 0) as [Hneg2|Hpos2].
  - match goal with |- context [set_errno_error error ?W] =>
      destruct (set_errno_error_frame W error Hok2) as (w3 & -> & _ & _ & _ & Hframe & _)
    end.
    exists w3. split; [done|]. split; [intros; lia|]. intros _.
    rewrite Hframe.
    + cbn [heap]. by destruct Hlive2 as (_ & _ & Hd2).
    + eapply error_arg_not_handler; [exact Hok2|]. right.
      destruct Hlive2 as (_ & _ & Hd2). eauto.
  - eexists. split; [done|]. cbn [heap]. split; [|intros; lia]. intros _.
    rewrite Hheap2, delete_insert_ne by congruence.
    rewrite delete_insert_eq. by rewrite delete_id.
Qed.

Lemma open_then_close_leaves_no_block_witness :
  ∃ n w1,
    smbfs_file_open (H := fake) "share/file.txt"%string 2 420 (Some 3%positive)
      (fake_world [(7, 0); (0, 0)]) = Some (Some n, w1) ∧
    ∃ w3,
      smbfs_file_close (H := fake) (Some 1%positive) (Some 3%positive)
        (with_heap w1 (<[1%positive := OHandler {| pos := 0; data := Some n |}]> (heap w1)))
        = Some (0, w3) ∧
      heap w3 = <[1%positive := OHandler {| pos := 0; data := Some n |}]> fake_heap.
Proof.
  destruct (open_then_close_leaves_no_block (H := fake) (fake_world [(7, 0); (0, 0)])
              "share/file.txt"%string 2 420 1%positive
              {| pos := 10; data := Some 2%positive |} (Some 3%positive)
              eq_refl eq_refl ltac:(simpl; lia))
    as (n & w1 & Hopen & w3 & Hclose & Hok & _).
  exists n, w1. split; [exact Hopen|]. exists w3. split; [exact Hclose|].
  apply Hok. simpl. lia.
Defined.
